(** * hanja-api: the wallpaper preview controller ([static/app.js])

    A shallow embedding of the browser script that previews and downloads
    generated wallpapers, and the properties of its URL construction, its
    preview fetch and its event handlers.

    Conventions of the embedding.
    - A JavaScript string is a [string]: the sequence of bytes of its UTF-8
      form, which is the form [URLSearchParams] serialises and the form in
      which response headers arrive.
    - A JavaScript Number is modelled on the integer-valued doubles, the two
      infinities and NaN; these are the only Numbers [parseInt] can return.
    - The DOM controls the script looks up at load time are present; their
      values, the preview container's markup, the requests handed to [fetch]
      and the anchors the script clicks are fields of the page state.
    - [console] output is not modelled: nothing in the script reads it back. *)

From Stdlib Require Import Strings.String Strings.Ascii NArith ZArith List Bool Lia.
From Stdlib Require Import DecimalString.
From Stdlib Require Import DecimalN.
Import ListNotations.
Open Scope string_scope.

(* ================================================================= *)
(** ** Strings *)

Module Str.

Definition bytes (l : list N) : string :=
  string_of_list_ascii (map ascii_of_N l).

Fixpoint rev (s : string) : string :=
  match s with
  | EmptyString => EmptyString
  | String c r => rev r ++ String c EmptyString
  end.

Definition is_empty (s : string) : bool :=
  match s with EmptyString => true | String _ _ => false end.

Fixpoint forallb (p : ascii -> bool) (s : string) : bool :=
  match s with
  | EmptyString => true
  | String c r => p c && forallb p r
  end.

(** [lacks c s]: the character [c] does not occur in [s]. *)
Definition lacks (c : ascii) (s : string) : bool :=
  forallb (fun x => negb (Ascii.eqb x c)) s.

(** [lit p s] strips the literal [p] from the front of [s]. *)
Fixpoint lit (p s : string) : option string :=
  match p with
  | EmptyString => Some s
  | String a p' =>
      match s with
      | String b s' => if Ascii.eqb a b then lit p' s' else None
      | EmptyString => None
      end
  end.

Fixpoint lit_any (ps : list string) (s : string) : option string :=
  match ps with
  | [] => None
  | p :: ps' =>
      match lit p s with
      | Some r => Some r
      | None => lit_any ps' s
      end
  end.

Fixpoint take_while (p : ascii -> bool) (s : string) : string :=
  match s with
  | String c r => if p c then String c (take_while p r) else EmptyString
  | EmptyString => EmptyString
  end.

Definition in_range (lo hi : N) (c : ascii) : bool :=
  ((lo <=? N_of_ascii c) && (N_of_ascii c <=? hi))%N.

Definition is_digit (c : ascii) : bool := in_range 48 57 c.

(** The class [\w] of a regular expression without the [u] and [i] flags:
    [A-Za-z0-9_]. *)
Definition is_word (c : ascii) : bool :=
  in_range 65 90 c || in_range 97 122 c || is_digit c || Ascii.eqb c "_".

(** ECMAScript WhiteSpace and LineTerminator code points, in UTF-8:
    TAB LF VT FF CR SP, U+00A0, U+1680, U+2000..U+200A, U+2028, U+2029,
    U+202F, U+205F, U+3000, U+FEFF. *)
Definition white_space : list string :=
  [ bytes [9]; bytes [10]; bytes [11]; bytes [12]; bytes [13]; bytes [32];
    bytes [194; 160];
    bytes [225; 154; 128];
    bytes [226; 128; 128]; bytes [226; 128; 129]; bytes [226; 128; 130];
    bytes [226; 128; 131]; bytes [226; 128; 132]; bytes [226; 128; 133];
    bytes [226; 128; 134]; bytes [226; 128; 135]; bytes [226; 128; 136];
    bytes [226; 128; 137]; bytes [226; 128; 138];
    bytes [226; 128; 168]; bytes [226; 128; 169];
    bytes [226; 128; 175];
    bytes [226; 129; 159];
    bytes [227; 128; 128];
    bytes [239; 187; 191] ]%N.

Fixpoint drop_any (ps : list string) (fuel : nat) (s : string) : string :=
  match fuel with
  | O => s
  | S fuel' =>
      match lit_any ps s with
      | Some r => drop_any ps fuel' r
      | None => s
      end
  end.

Definition trimStart (s : string) : string :=
  drop_any white_space (String.length s) s.

Definition trimEnd (s : string) : string :=
  rev (drop_any (map rev white_space) (String.length s) (rev s)).

(** [String.prototype.trim]. *)
Definition trim (s : string) : string := trimEnd (trimStart s).

End Str.

(* ================================================================= *)
(** ** Numbers and values *)

Module JS.

(** The Numbers the script can meet. [Finite z] is the double whose value
    is the integer [z]. *)
Inductive number : Type :=
| Finite (z : Z)
| PosInfinity
| NegInfinity
| NaN.

Inductive value : Type :=
| VNull
| VNumber (x : number)
| VString (s : string).

(** Round a natural number to the nearest double, ties to even; values
    that round to [2^1024] overflow. *)
Definition round_to_double (m : N) : number :=
  if (m <? 2 ^ 53)%N then Finite (Z.of_N m)
  else
    let e := (N.log2 m - 52)%N in
    let q := N.shiftr m e in
    let r := (m mod 2 ^ e)%N in
    let half := (2 ^ (e - 1))%N in
    let q' := if (half <? r)%N || ((r =? half)%N && N.odd q)
              then (q + 1)%N else q in
    let v := (q' * 2 ^ e)%N in
    if (2 ^ 1024 <=? v)%N then PosInfinity else Finite (Z.of_N v).

Definition negate (x : number) : number :=
  match x with
  | Finite z => Finite (- z)
  | PosInfinity => NegInfinity
  | NegInfinity => PosInfinity
  | NaN => NaN
  end.

Definition digit_value (c : ascii) : N := (N_of_ascii c - 48)%N.

Fixpoint decimal_value (acc : N) (s : string) : N :=
  match s with
  | EmptyString => acc
  | String c r => decimal_value (acc * 10 + digit_value c)%N r
  end.

(** [parseInt(s, 10)]: leading white space is skipped, one sign is read,
    the longest run of decimal digits is the numeral; no digit gives NaN.
    The numeral is rounded to the nearest double, as engines do (the
    language lets an implementation read the digits after the 20th as
    zeros, which changes no result used below). *)
Definition read_sign (s : string) : bool * string :=
  match s with
  | String "-" r => (true, r)
  | String "+" r => (false, r)
  | _ => (false, s)
  end.

Definition parseInt10 (s : string) : number :=
  let '(neg, s2) := read_sign (Str.trimStart s) in
  let ds := Str.take_while Str.is_digit s2 in
  if Str.is_empty ds then NaN
  else
    let x := round_to_double (decimal_value 0 ds) in
    if neg then negate x else x.

Definition decimal (n : N) : string :=
  NilZero.string_of_uint (N.to_uint n).

Fixpoint strip_zeros (fuel : nat) (n : N) : N :=
  match fuel with
  | O => n
  | S fuel' =>
      if ((0 <? n) && (n mod 10 =? 0))%N then strip_zeros fuel' (n / 10)%N
      else n
  end.

Definition distance (a b : N) : N := if (a <? b)%N then (b - a)%N else (a - b)%N.

(** The decimal numeral with the fewest significant digits that rounds to
    the double [x], the closest to [x] when there are two; [k] counts the
    significant digits tried, [nd] is the number of digits of [x]. *)
Fixpoint shortest (fuel : nat) (k nd x : N) : N :=
  match fuel with
  | O => x
  | S fuel' =>
      let scale := (10 ^ (nd - k))%N in
      let lo := (x / scale * scale)%N in
      let hi := (lo + scale)%N in
      let ok v := match round_to_double v with
                  | Finite z => (z =? Z.of_N x)%Z
                  | _ => false
                  end in
      match ok lo, ok hi with
      | true, true =>
          if (distance hi x <? distance lo x)%N then hi
          else if (distance lo x <? distance hi x)%N then lo
          else if N.even (lo / scale) then lo else hi
      | true, false => lo
      | false, true => hi
      | false, false => shortest fuel' (k + 1)%N nd x
      end
  end.

(** Number::toString, radix 10, of a positive integer-valued double. *)
Definition positive_to_string (x : N) : string :=
  let nd := N.of_nat (String.length (decimal x)) in
  let v := shortest (N.to_nat nd) 1 nd x in
  let n := N.of_nat (String.length (decimal v)) in
  if (n <=? 21)%N then decimal v
  else
    let s := decimal (strip_zeros (N.to_nat n) v) in
    let mantissa :=
      match s with
      | String d EmptyString => s
      | String d rest => String d ("." ++ rest)
      | EmptyString => s
      end in
    mantissa ++ "e+" ++ decimal (n - 1).

Definition number_to_string (x : number) : string :=
  match x with
  | NaN => "NaN"
  | PosInfinity => "Infinity"
  | NegInfinity => "-Infinity"
  | Finite Z0 => "0"
  | Finite (Zpos p) => positive_to_string (Npos p)
  | Finite (Zneg p) => "-" ++ positive_to_string (Npos p)
  end.

(** ToString, as applied by [URLSearchParams.set] and by template
    literals. *)
Definition ToString (v : value) : string :=
  match v with
  | VNull => "null"
  | VNumber x => number_to_string x
  | VString s => s
  end.

(** ToBoolean. *)
Definition truthy (v : value) : bool :=
  match v with
  | VNull => false
  | VNumber (Finite Z0) => false
  | VNumber NaN => false
  | VNumber _ => true
  | VString s => negb (Str.is_empty s)
  end.

(** Strict inequality with [null]. *)
Definition is_null (v : value) : bool :=
  match v with VNull => true | _ => false end.

End JS.

(* ================================================================= *)
(** ** The regular expression of the file-name header *)

Module RegExp.

Section Combinators.
Context {A : Type}.

(** A greedy [c+] followed by the rest of the pattern [k]: one character
    of the class is consumed, then the longer runs are tried before the
    rest of the pattern is tried here (backtracking, longest first).
    [k] receives the text consumed and the input left. *)
Fixpoint plus (cls : ascii -> bool) (k : string -> string -> option A)
         (acc s : string) : option A :=
  match s with
  | EmptyString => None
  | String c r =>
      if cls c then
        let acc' := acc ++ String c EmptyString in
        match plus cls k acc' r with
        | Some x => Some x
        | None => k acc' r
        end
      else None
  end.

Definition then_lit (p : string) (k : string -> option A) (s : string)
  : option A :=
  match Str.lit p s with
  | Some r => k r
  | None => None
  end.

End Combinators.

(** [/filename=wallpaper_\w+_(\d+)\.svg/] tried at the front of [s]; the
    result is capture group 1. *)
Definition match_here (s : string) : option string :=
  then_lit "filename=wallpaper_"
    (plus Str.is_word
       (fun _ => then_lit "_"
          (plus Str.is_digit
             (fun digits => then_lit ".svg" (fun _ => Some digits))
             ""))
       "") s.

(** [header.match(re)] for the expression above, which has no [g] flag: the
    match at the leftmost position where one exists, or [None] for [null].
    Only [match[1]] is kept, the one element the script reads. *)
Fixpoint match_filename (s : string) : option string :=
  match match_here s with
  | Some g => Some g
  | None =>
      match s with
      | String _ r => match_filename r
      | EmptyString => None
      end
  end.

(** The language of the expression, written out: [digits] is the text of
    group 1 in some occurrence of the pattern in [s]. *)
Definition occurs (s digits : string) : Prop :=
  exists pre w post,
    s = pre ++ "filename=wallpaper_" ++ w ++ "_" ++ digits ++ ".svg" ++ post
    /\ w <> "" /\ Str.forallb Str.is_word w = true
    /\ digits <> "" /\ Str.forallb Str.is_digit digits = true.

End RegExp.

(* ================================================================= *)
(** ** URLSearchParams *)

Module URLSearchParams.

Definition t : Type := list (string * string).

(** [new URLSearchParams({...})]: one pair per property, in order. *)
Definition of_record (l : list (string * string)) : t := l.

Definition remove (name : string) (l : t) : t :=
  filter (fun p => negb (String.eqb (fst p) name)) l.

(** [set]: the first pair of that name takes the value and the others are
    removed; with no such pair, one is appended. *)
Fixpoint set (name value : string) (l : t) : t :=
  match l with
  | [] => [(name, value)]
  | (n, v) :: r =>
      if String.eqb n name then (n, value) :: remove name r
      else (n, v) :: set name value r
  end.

Fixpoint get (name : string) (l : t) : option string :=
  match l with
  | [] => None
  | (n, v) :: r => if String.eqb n name then Some v else get name r
  end.

Definition has (name : string) (l : t) : bool :=
  match get name l with Some _ => true | None => false end.

(** The bytes the application/x-www-form-urlencoded serialiser leaves as
    they are: [*-._], digits and ASCII letters. *)
Definition unreserved (c : ascii) : bool :=
  Ascii.eqb c "*" || Ascii.eqb c "-" || Ascii.eqb c "." || Ascii.eqb c "_"
  || Str.is_digit c || Str.in_range 65 90 c || Str.in_range 97 122 c.

Definition hex_digit (n : N) : ascii :=
  if (n <? 10)%N then ascii_of_N (48 + n) else ascii_of_N (55 + n).

Definition encode_byte (c : ascii) : string :=
  if Ascii.eqb c " " then "+"
  else if unreserved c then String c EmptyString
  else String "%" (String (hex_digit (N_of_ascii c / 16))
                     (String (hex_digit (N_of_ascii c mod 16)) EmptyString)).

Fixpoint encode (s : string) : string :=
  match s with
  | EmptyString => EmptyString
  | String c r => encode_byte c ++ encode r
  end.

Definition encode_pair (p : string * string) : string :=
  encode (fst p) ++ "=" ++ encode (snd p).

(** [toString]: the serialiser. *)
Fixpoint toString (l : t) : string :=
  match l with
  | [] => EmptyString
  | [p] => encode_pair p
  | p :: r => encode_pair p ++ "&" ++ toString r
  end.

(** *** The parser, which reads the query string back *)

Fixpoint split_on (d : ascii) (s : string) : list string :=
  match s with
  | EmptyString => [EmptyString]
  | String c r =>
      if Ascii.eqb c d then EmptyString :: split_on d r
      else
        match split_on d r with
        | h :: t => String c h :: t
        | [] => [String c EmptyString]
        end
  end.

(** Name before the first [=], value after it; no [=] gives an empty
    value. *)
Fixpoint split_pair (s : string) : string * string :=
  match s with
  | EmptyString => (EmptyString, EmptyString)
  | String c r =>
      if Ascii.eqb c "=" then (EmptyString, r)
      else let '(n, v) := split_pair r in (String c n, v)
  end.

Definition hex_value (c : ascii) : option N :=
  let n := N_of_ascii c in
  if Str.is_digit c then Some (n - 48)%N
  else if Str.in_range 65 70 c then Some (n - 55)%N
  else if Str.in_range 97 102 c then Some (n - 87)%N
  else None.

(** [+] is read as a space first, then percent-decoding: a [%] followed by
    two hexadecimal digits is one byte, any other [%] stands for itself. *)
Fixpoint decode (s : string) : string :=
  match s with
  | EmptyString => EmptyString
  | String c t =>
      if Ascii.eqb c "%" then
        match t with
        | String a (String b r) =>
            match hex_value a, hex_value b with
            | Some h, Some l => String (ascii_of_N (16 * h + l)) (decode r)
            | _, _ => String c (decode t)
            end
        | _ => String c (decode t)
        end
      else if Ascii.eqb c "+" then String " " (decode t)
      else String c (decode t)
  end.

Definition parse_pair (s : string) : string * string :=
  let '(n, v) := split_pair s in (decode n, decode v).

Definition parse (s : string) : t :=
  map parse_pair (filter (fun q => negb (Str.is_empty q)) (split_on "&" s)).

End URLSearchParams.

(** The query string of a URL: what follows the first [?]. *)
Fixpoint query_of (url : string) : option string :=
  match url with
  | EmptyString => None
  | String c r => if Ascii.eqb c "?" then Some r else query_of r
  end.

Definition searchParams (url : string) : URLSearchParams.t :=
  match query_of url with
  | Some q => URLSearchParams.parse q
  | None => []
  end.

Definition path_of (url : string) : string :=
  Str.take_while (fun c => negb (Ascii.eqb c "?")) url.

(* ================================================================= *)
(** ** The controller *)

Module App.
Import JS.

(** The anchor [downloadPng] synthesises. *)
Record anchor : Type := mkAnchor { href : string; download : string }.

(** What the script reads of a [Response]: its status and the result of
    [headers.get('Content-Disposition')] ([None] for [null]). *)
Record response : Type :=
  mkResponse { status : nat; contentDisposition : option string }.

(** [response.ok]. *)
Definition ok (r : response) : bool :=
  (200 <=? status r)%nat && (status r <=? 299)%nat.

Inductive exn : Type := Error (message : string).

(** How an awaited promise settles. *)
Inductive settled (A : Type) : Type :=
| Resolved (a : A)
| RejectedWith (e : exn).
Arguments Resolved {A} a.
Arguments RejectedWith {A} e.

Inductive completion (A : Type) : Type :=
| Normal (a : A)
| Throw (e : exn).
Arguments Normal {A} a.
Arguments Throw {A} e.

(** One call of [fetchPreview]: suspended at [await fetch(url)], suspended
    at [await response.text()], or returned, its promise settled. *)
Inductive activation : Type :=
| AwaitFetch
| AwaitText (r : response)
| Fulfilled
| Rejected (e : exn).

Record page : Type := mkPage {
  characterSetSelect : string;      (* characterSetSelect.value *)
  iphoneModelSelect : string;       (* iphoneModelSelect.value *)
  characterIdInput : string;        (* characterIdInput.value *)
  currentCharacterId : value;
  previewContainer : string;        (* previewContainer.innerHTML, as assigned *)
  fetched : list string;            (* the URLs given to fetch, oldest first *)
  clicked : list anchor;            (* the anchors clicked, oldest first *)
  previews : list activation        (* the calls of fetchPreview, oldest first *)
}.

Definition set_characterSet (v : string) (pg : page) : page :=
  mkPage v (iphoneModelSelect pg) (characterIdInput pg) (currentCharacterId pg)
    (previewContainer pg) (fetched pg) (clicked pg) (previews pg).

Definition set_iphoneModel (v : string) (pg : page) : page :=
  mkPage (characterSetSelect pg) v (characterIdInput pg) (currentCharacterId pg)
    (previewContainer pg) (fetched pg) (clicked pg) (previews pg).

Definition set_characterId (v : string) (pg : page) : page :=
  mkPage (characterSetSelect pg) (iphoneModelSelect pg) v (currentCharacterId pg)
    (previewContainer pg) (fetched pg) (clicked pg) (previews pg).

Definition set_currentCharacterId (v : value) (pg : page) : page :=
  mkPage (characterSetSelect pg) (iphoneModelSelect pg) (characterIdInput pg) v
    (previewContainer pg) (fetched pg) (clicked pg) (previews pg).

Definition set_innerHTML (v : string) (pg : page) : page :=
  mkPage (characterSetSelect pg) (iphoneModelSelect pg) (characterIdInput pg)
    (currentCharacterId pg) v (fetched pg) (clicked pg) (previews pg).

Definition fetch (url : string) (pg : page) : page :=
  mkPage (characterSetSelect pg) (iphoneModelSelect pg) (characterIdInput pg)
    (currentCharacterId pg) (previewContainer pg) (fetched pg ++ [url])
    (clicked pg) (previews pg ++ [AwaitFetch]).

Definition click (a : anchor) (pg : page) : page :=
  mkPage (characterSetSelect pg) (iphoneModelSelect pg) (characterIdInput pg)
    (currentCharacterId pg) (previewContainer pg) (fetched pg)
    (clicked pg ++ [a]) (previews pg).

Fixpoint update_nth {A : Type} (i : nat) (x : A) (l : list A) : list A :=
  match l, i with
  | [], _ => []
  | _ :: r, O => x :: r
  | y :: r, S j => y :: update_nth j x r
  end.

Definition set_activation (i : nat) (a : activation) (pg : page) : page :=
  mkPage (characterSetSelect pg) (iphoneModelSelect pg) (characterIdInput pg)
    (currentCharacterId pg) (previewContainer pg) (fetched pg) (clicked pg)
    (update_nth i a (previews pg)).

Definition initial (characterSet iphoneModel characterId markup : string) : page :=
  mkPage characterSet iphoneModel characterId VNull markup [] [] [].

(** *** Markup *)

Definition dq : string := String (ascii_of_nat 34) EmptyString.
Definition nl : string := String (ascii_of_nat 10) EmptyString.

Definition loading_markup : string :=
  nl ++
  "        <div class=" ++ dq ++ "loading-placeholder" ++ dq ++ ">" ++ nl ++
  "            <div class=" ++ dq ++ "spinner-border text-light" ++ dq ++
               " role=" ++ dq ++ "status" ++ dq ++ ">" ++ nl ++
  "                <span class=" ++ dq ++ "visually-hidden" ++ dq ++
                   ">Loading...</span>" ++ nl ++
  "            </div>" ++ nl ++
  "        </div>" ++ nl ++
  "    ".

Definition error_markup : string :=
  nl ++
  "            <div class=" ++ dq ++ "loading-placeholder text-danger" ++ dq ++
               ">" ++ nl ++
  "                <span>Error loading preview</span>" ++ nl ++
  "            </div>" ++ nl ++
  "        ".

(** *** buildApiUrl *)

Definition buildApiUrl (outputType : string) (useCurrentId : bool) (pg : page)
  : string :=
  let params :=
    URLSearchParams.of_record
      [ ("output_type", outputType);
        ("character_list", characterSetSelect pg);
        ("iphone_model", iphoneModelSelect pg) ] in
  let charId := Str.trim (characterIdInput pg) in
  let params :=
    if negb (String.eqb charId "") then
      URLSearchParams.set "character_id" charId params
    else if useCurrentId && negb (is_null (currentCharacterId pg)) then
      URLSearchParams.set "character_id" (ToString (currentCharacterId pg))
        params
    else params in
  "/hanja-api/wallpaper?" ++ URLSearchParams.toString params.

(** *** showLoading *)

Definition showLoading (pg : page) : page := set_innerHTML loading_markup pg.

(** *** fetchPreview

    The function runs in three stretches, cut at its two [await]s. *)

(** Up to [await fetch(url)]. *)
Definition fetchPreview (pg : page) : page :=
  let pg := showLoading pg in
  let url := buildApiUrl "svg" false pg in
  fetch url pg.

(** The [catch] block. *)
Definition on_error (e : exn) (pg : page) : completion page :=
  Normal (set_innerHTML error_markup pg).

Definition try_catch {A : Type} (body : completion A)
           (handler : exn -> completion A) : completion A :=
  match body with
  | Normal a => Normal a
  | Throw e => handler e
  end.

(** The [try] block from the first [await] to the second: the awaited
    response, or the rejection thrown at the [await]; then the status
    check. A normal completion carries the response whose [text()] is
    awaited next. *)
Definition try_after_fetch (r : settled response) : completion response :=
  match r with
  | RejectedWith e => Throw e
  | Resolved resp =>
      if negb (ok resp) then
        Throw (Error ("HTTP error! status: " ++ decimal (N.of_nat (status resp))))
      else Normal resp
  end.

(** The [try] block after the second [await]. [accepted] is the document's
    answer to the assignment of the markup: an HTML document takes any
    text, an XML document throws on text that is not well formed and
    leaves the container as it was. *)
Definition try_after_text (resp : response) (r : settled string)
           (accepted : bool) (pg : page) : completion page :=
  match r with
  | RejectedWith e => Throw e
  | Resolved svgText =>
      if negb accepted then Throw (Error "SyntaxError")
      else
        let pg := set_innerHTML svgText pg in
        match contentDisposition resp with
        | Some header =>
            if negb (Str.is_empty header) then
              match RegExp.match_filename header with
              | Some digits =>
                  Normal (set_currentCharacterId (VNumber (parseInt10 digits)) pg)
              | None => Normal pg
              end
            else Normal pg
        | None => Normal pg
        end
  end.

(** The promise of an async function settles by the completion of its
    body. *)
Definition settle (i : nat) (pg : page) (c : completion page) : page :=
  match c with
  | Normal pg' => set_activation i Fulfilled pg'
  | Throw e => set_activation i (Rejected e) pg
  end.

(** Activation [i] resumes with the outcome of [fetch]. *)
Definition resume_fetch (i : nat) (r : settled response) (pg : page) : page :=
  match try_after_fetch r with
  | Normal resp => set_activation i (AwaitText resp) pg
  | Throw e => settle i pg (try_catch (Throw e) (fun e => on_error e pg))
  end.

(** Activation [i] resumes with the outcome of [response.text()]. *)
Definition resume_text (i : nat) (resp : response) (r : settled string)
           (accepted : bool) (pg : page) : page :=
  settle i pg
    (try_catch (try_after_text resp r accepted pg) (fun e => on_error e pg)).

(** *** downloadPng *)

Definition or_else (v w : value) : value := if truthy v then v else w.

Definition download_name (pg : page) : string :=
  "wallpaper_" ++ characterSetSelect pg ++ "_"
    ++ ToString (or_else (currentCharacterId pg) (VString "random")) ++ ".png".

Definition downloadPng (pg : page) : page :=
  let url := buildApiUrl "png" true pg in
  let link := mkAnchor url (download_name pg) in
  click link pg.

(** *** Event listeners *)

Definition on_refresh (pg : page) : page :=
  fetchPreview (set_currentCharacterId VNull pg).

Definition on_characterSet_change (pg : page) : page :=
  fetchPreview (set_currentCharacterId VNull pg).

Definition on_iphoneModel_change (pg : page) : page := fetchPreview pg.

Definition on_characterId_change (pg : page) : page :=
  fetchPreview (set_currentCharacterId VNull pg).

(** [lucide.createIcons()] touches nothing the script reads. *)
Definition on_DOMContentLoaded (pg : page) : page := fetchPreview pg.

(** What can happen to the page: the user acts on a control (a control
    holds its new value when its listener runs; text typed into the id
    field is there before [change] fires), or a pending promise settles. *)
Inductive event : Type :=
| DOMContentLoaded
| DownloadClick
| RefreshClick
| CharacterSetChange (v : string)
| IphoneModelChange (v : string)
| CharacterIdTyped (v : string)
| CharacterIdChange
| FetchSettled (i : nat) (r : settled response)
| TextSettled (i : nat) (r : settled string) (accepted : bool).

Definition dispatch (ev : event) (pg : page) : page :=
  match ev with
  | DOMContentLoaded => on_DOMContentLoaded pg
  | DownloadClick => downloadPng pg
  | RefreshClick => on_refresh pg
  | CharacterSetChange v => on_characterSet_change (set_characterSet v pg)
  | IphoneModelChange v => on_iphoneModel_change (set_iphoneModel v pg)
  | CharacterIdTyped v => set_characterId v pg
  | CharacterIdChange => on_characterId_change pg
  | FetchSettled i r =>
      match nth_error (previews pg) i with
      | Some AwaitFetch => resume_fetch i r pg
      | _ => pg
      end
  | TextSettled i r accepted =>
      match nth_error (previews pg) i with
      | Some (AwaitText resp) => resume_text i resp r accepted pg
      | _ => pg
      end
  end.

Definition run (evs : list event) (pg : page) : page :=
  fold_left (fun p ev => dispatch ev p) evs pg.

End App.

(* ================================================================= *)
(** ** Vocabulary of the properties *)

Module Props.
Import JS App.

(** The pages the script can produce: a page as loaded (no id stored, no
    request made) followed by any events. *)
Definition reachable (pg : page) : Prop :=
  exists characterSet iphoneModel characterId markup evs,
    pg = run evs (initial characterSet iphoneModel characterId markup).

(** The three parameters every URL carries. *)
Definition base_params (outputType : string) (pg : page) : URLSearchParams.t :=
  [ ("output_type", outputType);
    ("character_list", characterSetSelect pg);
    ("iphone_model", iphoneModelSelect pg) ].

(** [v] is [parseInt(ds, 10)] for a non-empty run of digits [ds]. *)
Definition parsed_digits (v : value) : Prop :=
  exists ds, ds <> "" /\ Str.forallb Str.is_digit ds = true
             /\ v = VNumber (parseInt10 ds).

Definition null_or_parsed (v : value) : Prop := v = VNull \/ parsed_digits v.

(** [v] is a Number whose value is a non-negative integer. *)
Definition natural (v : value) : Prop :=
  exists n : N, v = VNumber (Finite (Z.of_N n)).

Definition not_rejected (a : activation) : Prop :=
  match a with Rejected _ => False | _ => True end.

(** A page with every control filled, an id stored and nothing pending. *)
Definition sample (characterId : string) (id : value) : page :=
  mkPage "hanja" "iphone15" characterId id "" [] [] [].

(** The same page with one preview pending at [await fetch]. *)
Definition pending (characterSet : string) (id : value) : page :=
  mkPage characterSet "iphone15" "" id loading_markup
    ["/hanja-api/wallpaper?output_type=svg&character_list=hanja&iphone_model=iphone15"]
    [] [AwaitFetch].

(** The two events by which a pending preview receives a response and
    then its body, the document taking the markup. *)
Definition completes (i : nat) (resp : response) (svgText : string)
  : list event :=
  [FetchSettled i (Resolved resp); TextSettled i (Resolved svgText) true].

(** A run of [n] zeros. *)
Fixpoint zeros (n : nat) : string :=
  match n with
  | O => EmptyString
  | S m => String "0" (zeros m)
  end.

End Props.

(* ================================================================= *)
(** ** Vocabulary of the properties of histories *)

Module Traces.
Import JS App Props.

(** The events whose listener calls [fetchPreview]. *)
Definition starts_preview (ev : event) : bool :=
  match ev with
  | DOMContentLoaded | RefreshClick | CharacterSetChange _
  | IphoneModelChange _ | CharacterIdChange => true
  | _ => false
  end.

Definition is_download (ev : event) : bool :=
  match ev with DownloadClick => true | _ => false end.

(** The response texts a history delivers to [await response.text()]. *)
Fixpoint delivered (evs : list event) : list string :=
  match evs with
  | [] => []
  | TextSettled _ (Resolved svgText) _ :: evs' => svgText :: delivered evs'
  | _ :: evs' => delivered evs'
  end.

(** The events whose listener unsets the stored id. *)
Definition clears_id (ev : event) : bool :=
  match ev with
  | RefreshClick | CharacterSetChange _ | CharacterIdChange => true
  | _ => false
  end.

(** [fails i ev pg]: the event [ev] makes preview [i] of [pg] throw inside
    its [try] block: the request is rejected, the status is outside
    200..299, reading the body is rejected, or the document refuses the
    markup. *)
Definition fails (i : nat) (ev : event) (pg : page) : bool :=
  match ev, nth_error (previews pg) i with
  | FetchSettled j (RejectedWith _), Some AwaitFetch => (j =? i)%nat
  | FetchSettled j (Resolved resp), Some AwaitFetch =>
      (j =? i)%nat && negb (ok resp)
  | TextSettled j (RejectedWith _) _, Some (AwaitText _) => (j =? i)%nat
  | TextSettled j (Resolved _) false, Some (AwaitText _) => (j =? i)%nat
  | _, _ => false
  end.

(** A URL whose query asks for the output kind [svg]; an anchor whose
    target asks for [png]. *)
Definition svg_url (u : string) : Prop :=
  URLSearchParams.get "output_type" (searchParams u) = Some "svg".

Definition png_anchor (a : anchor) : Prop :=
  URLSearchParams.get "output_type" (searchParams (href a)) = Some "png".

(** The characters a URL built by the script is made of: the ones the
    serialiser leaves alone, its escapes [+] and [%], and the separators
    [/ ? = &]. *)
Definition url_char (c : ascii) : bool :=
  URLSearchParams.unreserved c
  || Ascii.eqb c "+" || Ascii.eqb c "%"
  || Ascii.eqb c "/" || Ascii.eqb c "?" || Ascii.eqb c "=" || Ascii.eqb c "&".

(** A run of [n] spaces. *)
Fixpoint spaces (n : nat) : string :=
  match n with
  | O => EmptyString
  | S m => String " " (spaces m)
  end.

(** A numeral of at most 15 digits that does not start with a zero. *)
Definition short_numeral (d : string) : bool :=
  Str.forallb Str.is_digit d
  && (String.length d <=? 15)%nat
  && match d with
     | EmptyString => false
     | String c _ => negb (Ascii.eqb c "0")
     end.

(** A page with an id stored, a blank id field and an earlier preview
    settled. *)
Definition settled_page (id : value) : page :=
  mkPage "hanja" "iphone15" "" id "<svg/>"
    ["/hanja-api/wallpaper?output_type=svg&character_list=hanja&iphone_model=iphone15"]
    [] [Fulfilled].

End Traces.

(* ================================================================= *)
(** ** Facts about strings *)

Section StringFacts.

Lemma append_assoc (a b c : string) : (a ++ b) ++ c = a ++ (b ++ c).
Proof. induction a as [|x a IH]; simpl; [reflexivity | now rewrite IH]. Qed.

Lemma forallb_append (p : ascii -> bool) (a b : string) :
  Str.forallb p (a ++ b) = Str.forallb p a && Str.forallb p b.
Proof.
  induction a as [|x a IH]; simpl; [reflexivity|].
  now rewrite IH, andb_assoc.
Qed.

Lemma lit_append (p r : string) : Str.lit p (p ++ r) = Some r.
Proof.
  induction p as [|x p IH]; simpl; [reflexivity|].
  now rewrite Ascii.eqb_refl.
Qed.

Lemma lit_Some (p s r : string) : Str.lit p s = Some r -> s = p ++ r.
Proof.
  revert s; induction p as [|x p IH]; intros s H; simpl in *.
  - now inversion H.
  - destruct s as [|y s]; [discriminate|].
    destruct (Ascii.eqb_spec x y) as [->|]; [|discriminate].
    now rewrite (IH _ H).
Qed.

(** Two ways to cut a string at a character that occurs in neither front
    part are the same cut. *)
Lemma cut_unique (c : ascii) (a b t t' : string) :
  Str.lacks c a = true ->
  Str.lacks c b = true ->
  a ++ String c t = b ++ String c t' -> a = b /\ t = t'.
Proof.
  unfold Str.lacks; revert b; induction a as [|x a IH]; intros [|y b] Ha Hb E; simpl in *.
  - inversion E; auto.
  - inversion E; subst y. now rewrite Ascii.eqb_refl in Hb.
  - inversion E; subst x. now rewrite Ascii.eqb_refl in Ha.
  - inversion E; subst y.
    apply andb_prop in Ha as [_ Ha]. apply andb_prop in Hb as [_ Hb].
    destruct (IH b Ha Hb H1) as [-> ->]; auto.
Qed.

Lemma forallb_impl (p q : ascii -> bool) (s : string) :
  (forall c, p c = true -> q c = true) ->
  Str.forallb p s = true -> Str.forallb q s = true.
Proof.
  intros Hpq; induction s as [|x s IH]; simpl; [reflexivity|].
  intros H; apply andb_prop in H as [Hx Hs].
  now rewrite (Hpq _ Hx), (IH Hs).
Qed.

Lemma lacks_append (c : ascii) (a b : string) :
  Str.lacks c (a ++ b) = Str.lacks c a && Str.lacks c b.
Proof. apply forallb_append. Qed.

Lemma lacks_cons (c x : ascii) (a : string) :
  Str.lacks c (String x a) = negb (Ascii.eqb x c) && Str.lacks c a.
Proof. reflexivity. Qed.

End StringFacts.

(* ================================================================= *)
(** ** The serialiser and the parser of URLSearchParams agree *)

Section UrlEncoded.
Import URLSearchParams.
Import Str (lacks).

Ltac each_byte c :=
  destruct c as [[] [] [] [] [] [] [] []].

Lemma encode_byte_lacks_amp (c : ascii) : lacks "&" (encode_byte c) = true.
Proof. each_byte c; reflexivity. Qed.

Lemma encode_byte_lacks_eq (c : ascii) : lacks "=" (encode_byte c) = true.
Proof. each_byte c; reflexivity. Qed.

Lemma decode_encode_byte (c : ascii) (r : string) :
  decode (encode_byte c ++ r) = String c (decode r).
Proof. each_byte c; reflexivity. Qed.

Lemma encode_lacks_amp (s : string) : lacks "&" (encode s) = true.
Proof.
  induction s as [|c s IH]; simpl; [reflexivity|].
  now rewrite lacks_append, IH, encode_byte_lacks_amp.
Qed.

Lemma encode_lacks_eq (s : string) : lacks "=" (encode s) = true.
Proof.
  induction s as [|c s IH]; simpl; [reflexivity|].
  now rewrite lacks_append, IH, encode_byte_lacks_eq.
Qed.

Lemma decode_encode (s : string) : decode (encode s) = s.
Proof.
  induction s as [|c s IH]; simpl; [reflexivity|].
  now rewrite decode_encode_byte, IH.
Qed.

Lemma split_pair_cut (n v : string) :
  lacks "=" n = true -> split_pair (n ++ String "=" v) = (n, v).
Proof.
  induction n as [|c n IH]; [reflexivity|].
  rewrite lacks_cons. simpl.
  intros H; apply andb_prop in H as [Hc Hn].
  destruct (Ascii.eqb c "="); [discriminate|].
  now rewrite (IH Hn).
Qed.

Lemma split_on_whole (a : string) :
  lacks "&" a = true -> split_on "&" a = [a].
Proof.
  induction a as [|c a IH]; [reflexivity|].
  rewrite lacks_cons. simpl.
  intros H; apply andb_prop in H as [Hc Ha].
  destruct (Ascii.eqb c "&"); [discriminate|].
  now rewrite (IH Ha).
Qed.

Lemma split_on_cut (a rest : string) :
  lacks "&" a = true ->
  split_on "&" (a ++ String "&" rest) = a :: split_on "&" rest.
Proof.
  induction a as [|c a IH]; [reflexivity|].
  rewrite lacks_cons. simpl.
  intros H; apply andb_prop in H as [Hc Ha].
  destruct (Ascii.eqb c "&"); [discriminate|].
  now rewrite (IH Ha).
Qed.

Lemma encode_pair_lacks_amp (p : string * string) :
  lacks "&" (encode_pair p) = true.
Proof.
  unfold encode_pair. rewrite !lacks_append.
  now rewrite !encode_lacks_amp.
Qed.

Lemma encode_pair_not_empty (p : string * string) :
  Str.is_empty (encode_pair p) = false.
Proof. unfold encode_pair. now destruct (encode (fst p)). Qed.

Lemma parse_encode_pair (p : string * string) :
  parse_pair (encode_pair p) = p.
Proof.
  unfold parse_pair, encode_pair. destruct p as [n v]; simpl.
  rewrite split_pair_cut by apply encode_lacks_eq.
  now rewrite !decode_encode.
Qed.

(** Reading back what [toString] wrote gives the list of pairs it wrote,
    names and values byte for byte. *)
Lemma parse_toString (l : t) : parse (toString l) = l.
Proof.
  unfold parse. induction l as [|p l IH]; [reflexivity|].
  destruct l as [|p' l].
  - cbn [toString]. rewrite split_on_whole by apply encode_pair_lacks_amp.
    cbn [filter]. rewrite encode_pair_not_empty.
    cbn [negb map]. now rewrite parse_encode_pair.
  - change (toString (p :: p' :: l))
      with (encode_pair p ++ String "&" (toString (p' :: l))).
    rewrite split_on_cut by apply encode_pair_lacks_amp.
    cbn [filter]. rewrite encode_pair_not_empty.
    cbn [negb map]. rewrite parse_encode_pair. f_equal. exact IH.
Qed.

End UrlEncoded.

(* ================================================================= *)
(** ** What the regular expression matches *)

Section RegExpFacts.
Import RegExp.

Lemma plus_sound {A : Type} cls (k : string -> string -> option A) acc s x :
  plus cls k acc s = Some x ->
  exists u r, s = u ++ r /\ u <> "" /\ Str.forallb cls u = true
              /\ k (acc ++ u) r = Some x.
Proof.
  revert acc; induction s as [|c s IH]; intros acc H; simpl in H.
  - discriminate.
  - destruct (cls c) eqn:Hc; [|discriminate].
    destruct (plus cls k (acc ++ String c "") s) eqn:Hp.
    + inversion H; subst a.
      destruct (IH _ Hp) as (u & r & -> & _ & Hu & Hk).
      exists (String c u), r. rewrite append_assoc in Hk.
      simpl. rewrite Hc, Hu. repeat split; try discriminate; assumption.
    + exists (String c ""), s. simpl. rewrite Hc.
      repeat split; try discriminate; assumption.
Qed.

Lemma plus_complete {A : Type} cls (k : string -> string -> option A) u :
  forall acc r x,
    u <> "" -> Str.forallb cls u = true -> k (acc ++ u) r = Some x ->
    exists y, plus cls k acc (u ++ r) = Some y.
Proof.
  induction u as [|c u IH]; intros acc r x Hne Hu Hk; [congruence|].
  simpl in Hu. apply andb_prop in Hu as [Hc Hu]. simpl. rewrite Hc.
  destruct u as [|c' u].
  - simpl. destruct (plus cls k (acc ++ String c "") r) as [y|]; eauto.
  - destruct (IH (acc ++ String c "") r x) as [y Hy];
      [discriminate | assumption | now rewrite append_assoc |].
    rewrite Hy. eauto.
Qed.

Lemma then_lit_Some {A : Type} p (k : string -> option A) s x :
  then_lit p k s = Some x <-> exists r, s = p ++ r /\ k r = Some x.
Proof.
  unfold then_lit. split.
  - destruct (Str.lit p s) as [r|] eqn:E; [|discriminate].
    intros H. exists r. split; [now apply lit_Some | assumption].
  - intros (r & -> & H). now rewrite lit_append.
Qed.

Lemma match_here_sound s digits :
  match_here s = Some digits ->
  exists w post,
    s = "filename=wallpaper_" ++ w ++ "_" ++ digits ++ ".svg" ++ post
    /\ w <> "" /\ Str.forallb Str.is_word w = true
    /\ digits <> "" /\ Str.forallb Str.is_digit digits = true.
Proof.
  unfold match_here. intros H.
  apply then_lit_Some in H as (r1 & -> & H).
  apply plus_sound in H as (w & r2 & -> & Hw & Hww & H).
  apply then_lit_Some in H as (r3 & -> & H).
  apply plus_sound in H as (d & r4 & -> & Hd & Hdd & H).
  apply then_lit_Some in H as (post & -> & H).
  inversion H; subst digits. simpl in *.
  exists w, post. repeat split; assumption.
Qed.

Lemma match_here_complete w digits post :
  w <> "" -> Str.forallb Str.is_word w = true ->
  digits <> "" -> Str.forallb Str.is_digit digits = true ->
  exists d,
    match_here ("filename=wallpaper_" ++ w ++ "_" ++ digits ++ ".svg" ++ post)
    = Some d.
Proof.
  intros Hw Hww Hd Hdd. unfold match_here.
  assert (Hin : exists d,
    then_lit "_"
      (plus Str.is_digit
         (fun digits0 => then_lit ".svg" (fun _ => Some digits0)) "")
      ("_" ++ digits ++ ".svg" ++ post) = Some d).
  { unfold then_lit at 1. rewrite lit_append.
    apply plus_complete with (x := digits); try assumption.
    apply then_lit_Some. now exists post. }
  destruct Hin as [d Hin].
  unfold then_lit at 1. rewrite lit_append.
  apply plus_complete with (x := d); assumption.
Qed.

(** The matcher finds group 1 of an occurrence of the pattern. *)
Lemma match_filename_sound s digits :
  match_filename s = Some digits -> occurs s digits.
Proof.
  induction s as [|c s IH]; simpl.
  - discriminate.
  - destruct (match_here (String c s)) eqn:E.
    + intros H; inversion H; subst s0.
      apply match_here_sound in E as (w & post & E & ?).
      exists "", w, post. now rewrite E.
    + intros H. destruct (IH H) as (pre & w & post & -> & ?).
      exists (String c pre), w, post. split; [reflexivity | assumption].
Qed.

Lemma match_filename_here s d :
  match_here s = Some d -> match_filename s = Some d.
Proof. intros E. destruct s; cbn [match_filename]; now rewrite E. Qed.

(** Where the pattern occurs, the matcher finds a match. *)
Lemma match_filename_complete s digits :
  occurs s digits -> exists d, match_filename s = Some d.
Proof.
  intros (pre & w & post & -> & Hw & Hww & Hd & Hdd).
  induction pre as [|c pre IH].
  - destruct (match_here_complete w digits post Hw Hww Hd Hdd) as [d E].
    exists d. now apply match_filename_here.
  - destruct IH as [d IH]. cbn [append match_filename].
    destruct (match_here _); eauto.
Qed.

Lemma match_filename_None s :
  match_filename s = None <-> (forall digits, ~ occurs s digits).
Proof.
  split.
  - intros H digits Ho.
    destruct (match_filename_complete _ _ Ho) as [d E]. congruence.
  - intros H. destruct (match_filename s) as [d|] eqn:E; [|reflexivity].
    exfalso. exact (H d (match_filename_sound _ _ E)).
Qed.

Lemma is_word_not_dot c : Str.is_word c = true -> negb (Ascii.eqb c ".") = true.
Proof. destruct (Ascii.eqb_spec c "."); [subst c; discriminate | reflexivity]. Qed.

Lemma is_digit_not_dot c : Str.is_digit c = true -> negb (Ascii.eqb c ".") = true.
Proof. destruct (Ascii.eqb_spec c "."); [subst c; discriminate | reflexivity]. Qed.

Lemma is_digit_not_underscore c :
  Str.is_digit c = true -> negb (Ascii.eqb c "_") = true.
Proof. destruct (Ascii.eqb_spec c "_"); [subst c; discriminate | reflexivity]. Qed.

(** A run of digits that follows an underscore and ends the string is the
    same run however the front of the string is cut. *)
Lemma digits_after_underscore u u' d y :
  Str.forallb Str.is_digit d = true -> Str.forallb Str.is_digit y = true ->
  u ++ String "_" d = u' ++ String "_" y -> d = y.
Proof.
  intros Hd Hy.
  assert (Hbad : forall a b t, Str.forallb Str.is_digit a = true ->
                               a <> b ++ String "_" t).
  { intros a b t Ha E.
    apply (forallb_impl _ _ _ is_digit_not_underscore) in Ha.
    rewrite E in Ha. fold (Str.lacks "_" (b ++ String "_" t)) in Ha.
    rewrite lacks_append, lacks_cons, Ascii.eqb_refl in Ha.
    now rewrite andb_false_r in Ha. }
  revert u'; induction u as [|c u IH]; intros [|c' u'] E; simpl in E.
  - now inversion E.
  - injection E as _ E. exfalso. exact (Hbad d u' y Hd E).
  - injection E as _ E. exfalso. exact (Hbad y u d Hy (eq_sym E)).
  - injection E as _ E. eauto.
Qed.

(** On a header value that holds one file name of the expected shape,
    group 1 is the run of digits before [.svg]. *)
Lemma match_here_canonical w d post :
  w <> "" -> Str.forallb Str.is_word w = true ->
  d <> "" -> Str.forallb Str.is_digit d = true ->
  match_here ("filename=wallpaper_" ++ w ++ "_" ++ d ++ ".svg" ++ post)
  = Some d.
Proof.
  intros Hw Hww Hd Hdd.
  destruct (match_here_complete w d post Hw Hww Hd Hdd) as [y E].
  rewrite E. f_equal.
  apply match_here_sound in E as (w' & post' & E & _ & Hww' & _ & Hyy).
  simpl in E. injection E as E.
  change (w ++ String "_" (d ++ String "." ("svg" ++ post))
          = w' ++ String "_" (y ++ String "." ("svg" ++ post'))) in E.
  change (String "_" (d ++ String "." ("svg" ++ post)))
    with ((String "_" d) ++ String "." ("svg" ++ post)) in E.
  change (String "_" (y ++ String "." ("svg" ++ post')))
    with ((String "_" y) ++ String "." ("svg" ++ post')) in E.
  rewrite <- !append_assoc in E.
  apply cut_unique in E as [E _].
  - symmetry. eapply digits_after_underscore; eauto.
  - rewrite lacks_append, lacks_cons. simpl.
    unfold Str.lacks.
    rewrite (forallb_impl _ _ _ is_word_not_dot Hww).
    now rewrite (forallb_impl _ _ _ is_digit_not_dot Hdd).
  - rewrite lacks_append, lacks_cons. simpl.
    unfold Str.lacks.
    rewrite (forallb_impl _ _ _ is_word_not_dot Hww').
    now rewrite (forallb_impl _ _ _ is_digit_not_dot Hyy).
Qed.

Lemma match_filename_skip pre s :
  Str.lacks "f" pre = true -> match_filename (pre ++ s) = match_filename s.
Proof.
  induction pre as [|c pre IH]; [reflexivity|].
  rewrite lacks_cons. intros H; apply andb_prop in H as [Hc Hpre].
  cbn [append match_filename].
  replace (match_here (String c (pre ++ s))) with (@None string).
  - now apply IH.
  - unfold match_here, then_lit at 1. cbn [Str.lit].
    rewrite Ascii.eqb_sym. now destruct (Ascii.eqb c "f").
Qed.

Lemma match_filename_canonical pre w d post :
  Str.lacks "f" pre = true ->
  w <> "" -> Str.forallb Str.is_word w = true ->
  d <> "" -> Str.forallb Str.is_digit d = true ->
  match_filename
    (pre ++ "filename=wallpaper_" ++ w ++ "_" ++ d ++ ".svg" ++ post)
  = Some d.
Proof.
  intros Hpre Hw Hww Hd Hdd. rewrite match_filename_skip by assumption.
  apply match_filename_here. now apply match_here_canonical.
Qed.

End RegExpFacts.

(* ================================================================= *)
(** ** parseInt on a run of digits *)

Section ParseIntFacts.
Import JS.

Ltac each_byte c :=
  destruct c as [[] [] [] [] [] [] [] []].

Lemma digit_not_white_space c r :
  Str.is_digit c = true -> Str.lit_any Str.white_space (String c r) = None.
Proof. each_byte c; intros H; try discriminate H; reflexivity. Qed.

Lemma digit_not_sign c r :
  Str.is_digit c = true -> read_sign (String c r) = (false, String c r).
Proof. each_byte c; intros H; try discriminate H; reflexivity. Qed.

Lemma take_while_all p s :
  Str.forallb p s = true -> Str.take_while p s = s.
Proof.
  induction s as [|c s IH]; simpl; [reflexivity|].
  intros H; apply andb_prop in H as [Hc Hs]. now rewrite Hc, IH.
Qed.

(** On a non-empty run of digits [parseInt] reads the whole run. *)
Lemma parseInt10_digits ds :
  ds <> "" -> Str.forallb Str.is_digit ds = true ->
  parseInt10 ds = round_to_double (decimal_value 0 ds).
Proof.
  destruct ds as [|c r]; [congruence|]. intros _ H.
  pose proof H as H'. simpl in H'. apply andb_prop in H' as [Hc _].
  unfold parseInt10, Str.trimStart. cbn [String.length Str.drop_any].
  rewrite digit_not_white_space, digit_not_sign by assumption.
  now rewrite take_while_all by assumption.
Qed.

Lemma round_to_double_shape m :
  round_to_double m = PosInfinity \/
  exists n, round_to_double m = Finite (Z.of_N n).
Proof.
  unfold round_to_double.
  destruct (m <? 2 ^ 53)%N; [right; eauto|].
  match goal with |- context [if (2 ^ 1024 <=? ?v)%N then _ else _] =>
    destruct (2 ^ 1024 <=? v)%N; [left; reflexivity | right; eauto] end.
Qed.

End ParseIntFacts.

(* ================================================================= *)
(** ** buildApiUrl *)

Section UrlFacts.
Import JS App URLSearchParams Props.

Lemma searchParams_wallpaper (q : URLSearchParams.t) :
  searchParams ("/hanja-api/wallpaper?" ++ toString q) = q.
Proof. unfold searchParams. cbn [append query_of Ascii.eqb Bool.eqb].
       apply parse_toString. Qed.

Lemma path_wallpaper (q : string) :
  path_of ("/hanja-api/wallpaper?" ++ q) = "/hanja-api/wallpaper".
Proof. reflexivity. Qed.

Lemma buildApiUrl_blank outputType pg :
  Str.trim (characterIdInput pg) = "" ->
  buildApiUrl outputType false pg
  = "/hanja-api/wallpaper?" ++ toString (base_params outputType pg).
Proof. intros H. unfold buildApiUrl. now rewrite H. Qed.

Lemma buildApiUrl_filled outputType useCurrentId pg :
  Str.trim (characterIdInput pg) <> "" ->
  buildApiUrl outputType useCurrentId pg
  = "/hanja-api/wallpaper?"
      ++ toString (base_params outputType pg
                   ++ [("character_id", Str.trim (characterIdInput pg))])%list.
Proof.
  intros H. unfold buildApiUrl.
  apply String.eqb_neq in H. rewrite H. reflexivity.
Qed.

Lemma buildApiUrl_reuse outputType pg :
  Str.trim (characterIdInput pg) = "" ->
  currentCharacterId pg <> VNull ->
  buildApiUrl outputType true pg
  = "/hanja-api/wallpaper?"
      ++ toString (base_params outputType pg
                   ++ [("character_id", ToString (currentCharacterId pg))])%list.
Proof.
  intros H Hid. unfold buildApiUrl. rewrite H.
  destruct (currentCharacterId pg); [congruence | reflexivity | reflexivity].
Qed.

Lemma toString_base outputType pg :
  toString (base_params outputType pg)
  = "output_type=" ++ encode outputType
      ++ "&character_list=" ++ encode (characterSetSelect pg)
      ++ "&iphone_model=" ++ encode (iphoneModelSelect pg).
Proof.
  unfold base_params, toString, encode_pair. cbn [fst snd].
  change (encode "output_type") with "output_type".
  change (encode "character_list") with "character_list".
  change (encode "iphone_model") with "iphone_model".
  rewrite !append_assoc. reflexivity.
Qed.

Lemma toString_with_id outputType pg v :
  toString (base_params outputType pg ++ [("character_id", v)])%list
  = toString (base_params outputType pg) ++ "&character_id=" ++ encode v.
Proof.
  unfold base_params, toString, encode_pair. cbn [app fst snd].
  change (encode "character_id") with "character_id".
  rewrite !append_assoc. reflexivity.
Qed.

End UrlFacts.

(* ================================================================= *)
(** ** The URLs the script builds *)

Section UrlClaims.
Import JS App Props.

(** C1. With a character-id field that trims to nothing, the URL the
    preview fetch builds (output kind [svg], id reuse off) is the wallpaper
    path followed by exactly the three parameters [output_type=svg],
    [character_list=S] and [iphone_model=M]; read back, its query holds
    those three pairs and no [character_id], whatever id is stored. It is
    the URL [fetchPreview] hands to [fetch]. *)
Theorem C1_preview_url_blank_field (pg : page) :
  Str.trim (characterIdInput pg) = "" ->
  let url := buildApiUrl "svg" false pg in
  url = "/hanja-api/wallpaper?output_type=svg"
          ++ "&character_list=" ++ URLSearchParams.encode (characterSetSelect pg)
          ++ "&iphone_model=" ++ URLSearchParams.encode (iphoneModelSelect pg)
  /\ searchParams url
     = [ ("output_type", "svg");
         ("character_list", characterSetSelect pg);
         ("iphone_model", iphoneModelSelect pg) ]
  /\ URLSearchParams.has "character_id" (searchParams url) = false
  /\ (forall id, buildApiUrl "svg" false (set_currentCharacterId id pg) = url)
  /\ fetched (fetchPreview pg) = (fetched pg ++ [url])%list.
Proof.
  intros H url. subst url.
  rewrite (buildApiUrl_blank _ _ H), searchParams_wallpaper.
  split; [| split; [| split; [| split]]].
  - rewrite toString_base.
    change (URLSearchParams.encode "svg") with "svg". reflexivity.
  - reflexivity.
  - reflexivity.
  - intros id. rewrite buildApiUrl_blank by exact H. reflexivity.
  - unfold fetchPreview, fetch. cbn [fetched]. f_equal. f_equal.
    rewrite buildApiUrl_blank by exact H. reflexivity.
Qed.

Lemma C1_preview_url_blank_field_witness :
  searchParams (buildApiUrl "svg" false (sample "  " (VNumber (Finite 7))))
  = [ ("output_type", "svg"); ("character_list", "hanja");
      ("iphone_model", "iphone15") ].
Proof.
  exact (proj1 (proj2
    (C1_preview_url_blank_field (sample "  " (VNumber (Finite 7))) eq_refl))).
Defined.

(** C2. With a character-id field whose trimmed value is not empty, every
    URL the script builds, for either output kind and with id reuse on or
    off, carries that trimmed value as its [character_id] parameter, byte
    for byte once the query is read back, and carries it whatever id is
    stored; this holds for the URL the preview fetches and for the target
    of the download anchor. *)
Theorem C2_field_value_is_character_id
        (outputType : string) (useCurrentId : bool) (pg : page) :
  Str.trim (characterIdInput pg) <> "" ->
  let url := buildApiUrl outputType useCurrentId pg in
  URLSearchParams.get "character_id" (searchParams url)
  = Some (Str.trim (characterIdInput pg))
  /\ searchParams url
     = [ ("output_type", outputType);
         ("character_list", characterSetSelect pg);
         ("iphone_model", iphoneModelSelect pg);
         ("character_id", Str.trim (characterIdInput pg)) ]
  /\ (forall id, buildApiUrl outputType useCurrentId
                   (set_currentCharacterId id pg) = url)
  /\ (exists u, fetched (fetchPreview pg) = (fetched pg ++ [u])%list
                /\ URLSearchParams.get "character_id" (searchParams u)
                   = Some (Str.trim (characterIdInput pg)))
  /\ (exists a, clicked (downloadPng pg) = (clicked pg ++ [a])%list
                /\ URLSearchParams.get "character_id" (searchParams (href a))
                   = Some (Str.trim (characterIdInput pg))).
Proof.
  intros H url. subst url.
  rewrite (buildApiUrl_filled _ _ _ H), searchParams_wallpaper.
  split; [| split; [| split; [| split]]].
  - reflexivity.
  - reflexivity.
  - intros id. rewrite buildApiUrl_filled by exact H. reflexivity.
  - eexists. split; [reflexivity|].
    rewrite buildApiUrl_filled by exact H.
    rewrite searchParams_wallpaper. reflexivity.
  - eexists. split; [reflexivity|]. cbn [href].
    rewrite (buildApiUrl_filled _ _ _ H), searchParams_wallpaper.
    reflexivity.
Qed.

Lemma C2_field_value_is_character_id_witness :
  URLSearchParams.get "character_id"
    (searchParams (buildApiUrl "png" true (sample "42" (VNumber (Finite 7)))))
  = Some "42".
Proof.
  refine (proj1 (C2_field_value_is_character_id "png" true
                   (sample "42" (VNumber (Finite 7))) _)).
  vm_compute. discriminate.
Defined.

(** C4. With a character-id field that trims to nothing and a stored id
    of 7, a URL built with id reuse on ends in [character_id=7] and its
    query reads back with [character_id] bound to [7]; the download action
    builds its anchor's target this way, for the output kind [png]. *)
Theorem C4_reuse_of_stored_id (outputType : string) (pg : page) :
  Str.trim (characterIdInput pg) = "" ->
  currentCharacterId pg = VNumber (Finite 7) ->
  let url := buildApiUrl outputType true pg in
  URLSearchParams.get "character_id" (searchParams url) = Some "7"
  /\ url = "/hanja-api/wallpaper?output_type=" ++ URLSearchParams.encode outputType
             ++ "&character_list=" ++ URLSearchParams.encode (characterSetSelect pg)
             ++ "&iphone_model=" ++ URLSearchParams.encode (iphoneModelSelect pg)
             ++ "&character_id=7"
  /\ (exists a, clicked (downloadPng pg) = (clicked pg ++ [a])%list
                /\ href a = buildApiUrl "png" true pg).
Proof.
  intros H Hid url. subst url.
  rewrite (buildApiUrl_reuse _ _ H) by (rewrite Hid; discriminate).
  rewrite searchParams_wallpaper, Hid.
  change (ToString (VNumber (Finite 7))) with "7".
  split; [| split].
  - reflexivity.
  - rewrite toString_with_id, toString_base.
    change (URLSearchParams.encode "7") with "7".
    rewrite !append_assoc. reflexivity.
  - eexists. split; reflexivity.
Qed.

Lemma C4_reuse_of_stored_id_witness :
  buildApiUrl "png" true (sample "" (VNumber (Finite 7)))
  = "/hanja-api/wallpaper?output_type=png&character_list=hanja&iphone_model=iphone15&character_id=7".
Proof.
  exact (proj1 (proj2
    (C4_reuse_of_stored_id "png" (sample "" (VNumber (Finite 7)))
       eq_refl eq_refl))).
Defined.

End UrlClaims.

(* ================================================================= *)
(** ** The download action *)

Section DownloadClaims.
Import JS App Props.

(** C9. The file name the download anchor suggests is computed from the
    selected character set and the stored id alone: [wallpaper_<set>_<id>.png]
    when the stored id is truthy, [wallpaper_<set>_random.png] otherwise, and
    the content of the character-id field does not enter it. So a stored id
    of 0 gives the [random] name although, with a blank field, the anchor's
    target carries [character_id=0]; and a filled field with no id stored
    gives the [random] name while the target carries the field's value as
    [character_id]. *)
Theorem C9_download_name_from_stored_id (pg : page) :
  exists a,
    clicked (downloadPng pg) = (clicked pg ++ [a])%list
    /\ href a = buildApiUrl "png" true pg
    /\ download a
       = "wallpaper_" ++ characterSetSelect pg ++ "_"
           ++ (if truthy (currentCharacterId pg)
               then ToString (currentCharacterId pg) else "random")
           ++ ".png"
    /\ (forall field,
          exists b,
            clicked (downloadPng (set_characterId field pg))
            = (clicked pg ++ [b])%list
            /\ download b = download a)
    /\ (currentCharacterId pg = VNumber (Finite 0) ->
        Str.trim (characterIdInput pg) = "" ->
        download a = "wallpaper_" ++ characterSetSelect pg ++ "_random.png"
        /\ URLSearchParams.get "character_id" (searchParams (href a))
           = Some "0")
    /\ (currentCharacterId pg = VNull ->
        Str.trim (characterIdInput pg) <> "" ->
        download a = "wallpaper_" ++ characterSetSelect pg ++ "_random.png"
        /\ URLSearchParams.get "character_id" (searchParams (href a))
           = Some (Str.trim (characterIdInput pg))).
Proof.
  eexists. split; [reflexivity|]. cbn [href download].
  split; [reflexivity|]. split; [|split; [|split]].
  - unfold download_name, or_else.
    now destruct (truthy (currentCharacterId pg)).
  - intros field. eexists. split; reflexivity.
  - intros Hid H. unfold download_name. rewrite Hid. split; [reflexivity|].
    rewrite (buildApiUrl_reuse _ _ H) by (rewrite Hid; discriminate).
    rewrite searchParams_wallpaper, Hid. reflexivity.
  - intros Hid H. unfold download_name. rewrite Hid. split; [reflexivity|].
    rewrite (buildApiUrl_filled _ _ _ H), searchParams_wallpaper.
    reflexivity.
Qed.

Lemma C9_download_name_from_stored_id_witness :
  exists a,
    clicked (downloadPng (sample "" (VNumber (Finite 0)))) = [a]
    /\ download a = "wallpaper_hanja_random.png"
    /\ href a = "/hanja-api/wallpaper?output_type=png&character_list=hanja&iphone_model=iphone15&character_id=0".
Proof.
  destruct (C9_download_name_from_stored_id (sample "" (VNumber (Finite 0))))
    as (a & Hc & Hh & Hd & _).
  exists a. split; [exact Hc|]. split; [exact Hd | exact Hh].
Defined.

End DownloadClaims.

(* ================================================================= *)
(** ** Activations *)

Section ActivationFacts.
Import JS App Props.

Lemma update_nth_length {A} i (x : A) l :
  List.length (update_nth i x l) = List.length l.
Proof.
  revert i; induction l as [|y l IH]; intros [|i]; simpl; auto.
Qed.

Lemma nth_error_update_nth {A} i (x y : A) l :
  nth_error l i = Some y -> nth_error (update_nth i x l) i = Some x.
Proof.
  revert i; induction l as [|z l IH]; intros [|i]; simpl;
    try discriminate; auto.
Qed.

Lemma Forall_update_nth {A} (P : A -> Prop) i x l :
  P x -> Forall P l -> Forall P (update_nth i x l).
Proof.
  intros Hx H; revert i; induction H as [|y l Hy Hl IH]; intros [|i]; simpl;
    auto.
Qed.

Lemma run_app evs evs' pg : run (evs ++ evs')%list pg = run evs' (run evs pg).
Proof. apply fold_left_app. Qed.

End ActivationFacts.

(* ================================================================= *)
(** ** The preview fetch *)

Section FetchClaims.
Import JS App Props.

Lemma completes_run i resp svgText pg :
  nth_error (previews pg) i = Some AwaitFetch ->
  ok resp = true ->
  run (completes i resp svgText) pg
  = resume_text i resp (Resolved svgText) true
      (set_activation i (AwaitText resp) pg).
Proof.
  intros Hi Hok. unfold completes, run. cbn [fold_left dispatch].
  rewrite Hi. unfold resume_fetch, try_after_fetch. rewrite Hok.
  cbn [negb set_activation previews].
  now rewrite (nth_error_update_nth _ _ _ _ Hi).
Qed.

Lemma occurs_not_empty h ds : RegExp.occurs h ds -> Str.is_empty h = false.
Proof.
  intros (pre & w & post & -> & _). destruct pre; reflexivity.
Qed.

(** The id stored when a preview completes, by the header. *)
Lemma completes_id i resp svgText pg :
  nth_error (previews pg) i = Some AwaitFetch ->
  ok resp = true ->
  currentCharacterId (run (completes i resp svgText) pg)
  = match contentDisposition resp with
    | Some h =>
        match RegExp.match_filename h with
        | Some ds => VNumber (parseInt10 ds)
        | None => currentCharacterId pg
        end
    | None => currentCharacterId pg
    end.
Proof.
  intros Hi Hok. rewrite completes_run by assumption.
  unfold resume_text, try_after_text. cbn [negb].
  destruct (contentDisposition resp) as [h|]; [|reflexivity].
  destruct h as [|c h]; [reflexivity|].
  cbn [Str.is_empty negb].
  destruct (RegExp.match_filename (String c h)); reflexivity.
Qed.

(** C3. When a pending preview receives a response of success status and
    then its body, the preview settles with the body as the container's
    markup, and the stored id is set by the [Content-Disposition] header:
    where the header holds an occurrence of the file-name pattern, the id
    becomes [parseInt] of the digits of such an occurrence, which is the
    decimal value of those digits as a Number (123 for
    [attachment; filename=wallpaper_hanja_123.svg]); where the header is
    absent, or holds no occurrence of the pattern, the id keeps the value
    it had before. *)
Theorem C3_id_from_content_disposition
        (pg : page) (i : nat) (resp : response) (svgText : string) :
  nth_error (previews pg) i = Some AwaitFetch ->
  ok resp = true ->
  let pg' := run (completes i resp svgText) pg in
  nth_error (previews pg') i = Some Fulfilled
  /\ previewContainer pg' = svgText
  /\ (forall h, contentDisposition resp = Some h ->
                (exists ds, RegExp.occurs h ds) ->
                exists ds, RegExp.occurs h ds
                           /\ currentCharacterId pg' = VNumber (parseInt10 ds)
                           /\ parseInt10 ds
                              = round_to_double (decimal_value 0 ds))
  /\ (contentDisposition resp
      = Some "attachment; filename=wallpaper_hanja_123.svg" ->
      currentCharacterId pg' = VNumber (Finite 123))
  /\ (contentDisposition resp = None ->
      currentCharacterId pg' = currentCharacterId pg)
  /\ (forall h, contentDisposition resp = Some h ->
                (forall ds, ~ RegExp.occurs h ds) ->
                currentCharacterId pg' = currentCharacterId pg).
Proof.
  intros Hi Hok pg'. subst pg'.
  split; [| split; [| split; [| split; [| split]]]].
  - rewrite completes_run by assumption.
    unfold resume_text, try_after_text. cbn [negb].
    assert (H : nth_error (previews (set_activation i (AwaitText resp) pg)) i
                = Some (AwaitText resp))
      by (cbn [set_activation previews]; eapply nth_error_update_nth; eauto).
    destruct (contentDisposition resp) as [h|];
      [destruct (negb (Str.is_empty h));
         [destruct (RegExp.match_filename h)|]|];
      cbn [try_catch settle set_activation previews set_innerHTML
           set_currentCharacterId];
      eapply nth_error_update_nth; eauto.
  - rewrite completes_run by assumption.
    unfold resume_text, try_after_text. cbn [negb].
    destruct (contentDisposition resp) as [h|];
      [destruct (negb (Str.is_empty h));
         [destruct (RegExp.match_filename h)|]|];
      reflexivity.
  - intros h Hh [ds0 Hocc]. rewrite completes_id, Hh by assumption.
    destruct (match_filename_complete _ _ Hocc) as [ds E]. rewrite E.
    pose proof (match_filename_sound _ _ E) as Hds.
    exists ds. split; [exact Hds|]. split; [reflexivity|].
    destruct Hds as (_ & _ & _ & _ & _ & _ & Hne & Hdig).
    now apply parseInt10_digits.
  - intros Hh. rewrite completes_id, Hh by assumption. reflexivity.
  - intros Hh. rewrite completes_id, Hh by assumption. reflexivity.
  - intros h Hh Hno. rewrite completes_id, Hh by assumption.
    apply match_filename_None in Hno. now rewrite Hno.
Qed.

Lemma C3_id_from_content_disposition_witness :
  currentCharacterId
    (run (completes 0
            (mkResponse 200 (Some "attachment; filename=wallpaper_hanja_123.svg"))
            "<svg/>")
         (pending "hanja" VNull))
  = VNumber (Finite 123).
Proof.
  exact (proj1 (proj2 (proj2 (proj2
    (C3_id_from_content_disposition (pending "hanja" VNull) 0
       (mkResponse 200 (Some "attachment; filename=wallpaper_hanja_123.svg"))
       "<svg/>" eq_refl eq_refl)))) eq_refl).
Defined.

(** C5. When a pending preview receives a response whose status is outside
    200..299 (500, say), the preview settles at once: the container shows
    the error markup, which is neither the loading markup nor anything read
    from the response, whose body is never asked for; the stored id and the
    list of requests made are as they were, no new preview is started, and
    no later settlement addressed to this preview changes the page. *)
Theorem C5_failure_status (pg : page) (i : nat) (resp : response) :
  nth_error (previews pg) i = Some AwaitFetch ->
  ok resp = false ->
  let pg' := dispatch (FetchSettled i (Resolved resp)) pg in
  previewContainer pg' = error_markup
  /\ error_markup <> loading_markup
  /\ currentCharacterId pg' = currentCharacterId pg
  /\ fetched pg' = fetched pg
  /\ List.length (previews pg') = List.length (previews pg)
  /\ nth_error (previews pg') i = Some Fulfilled
  /\ (forall r accepted, dispatch (TextSettled i r accepted) pg' = pg')
  /\ (forall r, dispatch (FetchSettled i r) pg' = pg').
Proof.
  intros Hi Hok pg'.
  assert (E : pg' = set_activation i Fulfilled (set_innerHTML error_markup pg)).
  { subst pg'. cbn [dispatch]. rewrite Hi.
    unfold resume_fetch, try_after_fetch. now rewrite Hok. }
  rewrite E. clear E pg'.
  pose proof (nth_error_update_nth i Fulfilled _ _ Hi) as Hn.
  split; [reflexivity|]. split; [discriminate|].
  split; [reflexivity|]. split; [reflexivity|].
  split; [apply update_nth_length|]. split; [exact Hn|].
  split; intros; unfold dispatch;
    cbn [previews set_activation set_innerHTML]; now rewrite Hn.
Qed.

Lemma C5_failure_status_witness :
  previewContainer
    (dispatch (FetchSettled 0 (Resolved (mkResponse 500 None)))
              (pending "hanja" (VNumber (Finite 7))))
  = error_markup
  /\ currentCharacterId
       (dispatch (FetchSettled 0 (Resolved (mkResponse 500 None)))
                 (pending "hanja" (VNumber (Finite 7))))
     = VNumber (Finite 7).
Proof.
  pose proof (C5_failure_status (pending "hanja" (VNumber (Finite 7))) 0
                (mkResponse 500 None) eq_refl eq_refl) as H.
  split; [exact (proj1 H) | exact (proj1 (proj2 (proj2 H)))].
Defined.

(** C6, as stated, fails: with the character set [hanja] selected, a
    response whose file name is [wallpaper_other_5.svg] still changes the
    stored id, from unset to 5. *)
Lemma C6_other_set_counterexample :
  characterSetSelect (pending "hanja" VNull) = "hanja"
  /\ "other" <> "hanja"
  /\ currentCharacterId (pending "hanja" VNull) = VNull
  /\ currentCharacterId
       (run (completes 0
               (mkResponse 200
                  (Some "attachment; filename=wallpaper_other_5.svg"))
               "<svg/>")
            (pending "hanja" VNull))
     = VNumber (Finite 5).
Proof.
  split; [reflexivity|]. split; [discriminate|]. split; reflexivity.
Qed.

(** C6, amended. On a successful preview response the digits are taken
    from a [Content-Disposition] file name of the shape
    [wallpaper_<word>_<digits>.svg], where [<word>] is any non-empty run of
    letters, digits and underscores: the selected character set is not
    consulted. When the header holds such a name (after a prefix free of
    the letter [f], as [attachment; ] is) the stored id becomes [parseInt]
    of its digits, whatever character set is selected; when the header
    holds no occurrence of the shape the stored id does not change. *)
Theorem C6_middle_component_is_any_word
        (pg : page) (i : nat) (resp : response) (svgText : string)
        (pre w d post : string) :
  nth_error (previews pg) i = Some AwaitFetch ->
  ok resp = true ->
  Str.lacks "f" pre = true ->
  w <> "" -> Str.forallb Str.is_word w = true ->
  d <> "" -> Str.forallb Str.is_digit d = true ->
  (contentDisposition resp
   = Some (pre ++ "filename=wallpaper_" ++ w ++ "_" ++ d ++ ".svg" ++ post) ->
   forall characterSet,
     currentCharacterId
       (run (completes i resp svgText) (set_characterSet characterSet pg))
     = VNumber (parseInt10 d))
  /\ (forall h, contentDisposition resp = Some h ->
                (forall ds, ~ RegExp.occurs h ds) ->
                forall characterSet,
                  currentCharacterId
                    (run (completes i resp svgText)
                         (set_characterSet characterSet pg))
                  = currentCharacterId pg).
Proof.
  intros Hi Hok Hpre Hw Hww Hd Hdd. split.
  - intros Hh characterSet. rewrite completes_id, Hh by assumption.
    now rewrite match_filename_canonical.
  - intros h Hh Hno characterSet. rewrite completes_id, Hh by assumption.
    apply match_filename_None in Hno. now rewrite Hno.
Qed.

Lemma C6_middle_component_is_any_word_witness :
  currentCharacterId
    (run (completes 0
            (mkResponse 200
               (Some "attachment; filename=wallpaper_other_5.svg")) "<svg/>")
         (set_characterSet "hanja" (pending "hanja" VNull)))
  = VNumber (parseInt10 "5").
Proof.
  refine (proj1 (C6_middle_component_is_any_word (pending "hanja" VNull) 0
                   (mkResponse 200
                      (Some "attachment; filename=wallpaper_other_5.svg"))
                   "<svg/>" "attachment; " "other" "5" ""
                   eq_refl eq_refl eq_refl _ eq_refl _ eq_refl)
                eq_refl "hanja"); discriminate.
Defined.

(** C8. The preview fetch always runs to completion and its promise is
    never rejected. Started, it suspends at the request. Resumed with the
    outcome of the request, whatever it is, it either suspends once more,
    on the body of a response of success status, or settles fulfilled with
    the error markup shown. Resumed with the outcome of reading the body,
    whatever it is and whether or not the document takes the markup, it
    settles fulfilled, and the container then holds the text received or
    the error markup. So any two outcomes bring a pending preview to
    fulfilment, and no page the script can reach holds a rejected
    preview. *)
Theorem C8_fetch_preview_never_rejects :
  (forall pg, previews (fetchPreview pg) = (previews pg ++ [AwaitFetch])%list)
  /\ (forall pg i r,
        nth_error (previews pg) i = Some AwaitFetch ->
        let pg' := dispatch (FetchSettled i r) pg in
        (exists resp, r = Resolved resp /\ ok resp = true
                      /\ nth_error (previews pg') i = Some (AwaitText resp))
        \/ (nth_error (previews pg') i = Some Fulfilled
            /\ previewContainer pg' = error_markup))
  /\ (forall pg i resp r accepted,
        nth_error (previews pg) i = Some (AwaitText resp) ->
        let pg' := dispatch (TextSettled i r accepted) pg in
        nth_error (previews pg') i = Some Fulfilled
        /\ ((exists svgText, r = Resolved svgText
                             /\ previewContainer pg' = svgText)
            \/ previewContainer pg' = error_markup))
  /\ (forall pg i r r' accepted,
        nth_error (previews pg) i = Some AwaitFetch ->
        let pg' := run [FetchSettled i r; TextSettled i r' accepted] pg in
        nth_error (previews pg') i = Some Fulfilled
        /\ ((exists svgText, r' = Resolved svgText
                             /\ previewContainer pg' = svgText)
            \/ previewContainer pg' = error_markup))
  /\ (forall pg, reachable pg -> Forall not_rejected (previews pg)).
Proof.
  assert (A : forall pg i r,
    nth_error (previews pg) i = Some AwaitFetch ->
    (exists resp, r = Resolved resp /\ ok resp = true
       /\ dispatch (FetchSettled i r) pg
          = set_activation i (AwaitText resp) pg)
    \/ dispatch (FetchSettled i r) pg
       = set_activation i Fulfilled (set_innerHTML error_markup pg)).
  { intros pg i r Hi. cbn [dispatch]. rewrite Hi.
    unfold resume_fetch, try_after_fetch.
    destruct r as [resp|e]; [|right; reflexivity].
    destruct (ok resp) eqn:Hok; [left; eauto | right; reflexivity]. }
  assert (B : forall pg i resp r accepted,
    nth_error (previews pg) i = Some (AwaitText resp) ->
    exists pg1,
      dispatch (TextSettled i r accepted) pg = set_activation i Fulfilled pg1
      /\ previews pg1 = previews pg
      /\ ((exists svgText, r = Resolved svgText
                           /\ previewContainer pg1 = svgText)
          \/ previewContainer pg1 = error_markup)).
  { intros pg i resp r accepted Hi. cbn [dispatch]. rewrite Hi.
    unfold resume_text, try_after_text.
    destruct r as [svgText|e];
      [|eexists; split; [reflexivity|]; split; [reflexivity|];
        right; reflexivity].
    destruct accepted;
      [|eexists; split; [reflexivity|]; split; [reflexivity|];
        right; reflexivity].
    cbn [negb].
    destruct (contentDisposition resp) as [h|];
      [destruct (negb (Str.is_empty h));
         [destruct (RegExp.match_filename h)|]|];
      (eexists; split; [reflexivity|]; split; [reflexivity|];
       left; eexists; split; reflexivity). }
  split; [reflexivity|]. split; [|split; [|split]].
  - intros pg i r Hi pg'. subst pg'.
    destruct (A pg i r Hi) as [(resp & -> & Hok & ->) | ->].
    + left. exists resp. split; [reflexivity|]. split; [exact Hok|].
      cbn [previews set_activation]. eapply nth_error_update_nth; eauto.
    + right. split; [|reflexivity].
      cbn [previews set_activation set_innerHTML].
      eapply nth_error_update_nth; eauto.
  - intros pg i resp r accepted Hi pg'. subst pg'.
    destruct (B pg i resp r accepted Hi) as (pg1 & -> & Hp & Hc).
    split; [|exact Hc].
    cbn [previews set_activation]. rewrite Hp.
    eapply nth_error_update_nth; eauto.
  - intros pg i r r' accepted Hi pg'. subst pg'.
    unfold run. cbn [fold_left].
    destruct (A pg i r Hi) as [(resp & -> & Hok & E) | E]; rewrite E.
    + assert (Hi' : nth_error (previews (set_activation i (AwaitText resp) pg)) i
                    = Some (AwaitText resp))
        by (cbn [previews set_activation];
            eapply nth_error_update_nth; eauto).
      destruct (B _ i resp r' accepted Hi') as (pg1 & -> & Hp & Hc).
      split; [|exact Hc].
      cbn [previews set_activation]. rewrite Hp.
      eapply nth_error_update_nth; eauto.
    + assert (Hn : nth_error
                     (previews (set_activation i Fulfilled
                                  (set_innerHTML error_markup pg))) i
                   = Some Fulfilled)
        by (cbn [previews set_activation set_innerHTML];
            eapply nth_error_update_nth; eauto).
      assert (Hd : dispatch (TextSettled i r' accepted)
                     (set_activation i Fulfilled
                        (set_innerHTML error_markup pg))
                   = set_activation i Fulfilled
                       (set_innerHTML error_markup pg))
        by (unfold dispatch; now rewrite Hn).
      rewrite Hd. split; [exact Hn | right; reflexivity].
  - intros pg (cs & im & ci & mk & evs & ->).
    induction evs as [|ev evs IH] using rev_ind; [constructor|].
    rewrite run_app. cbn [run fold_left].
    fold (run evs (initial cs im ci mk)).
    set (p := run evs (initial cs im ci mk)) in *.
    assert (Hstart : forall q, Forall not_rejected (previews q) ->
                               Forall not_rejected (previews (fetchPreview q))).
    { intros q Hq. cbn. apply Forall_app. split; [exact Hq|].
      repeat constructor. }
    destruct ev; cbn [dispatch]; try (apply Hstart; exact IH); try exact IH.
    + destruct (nth_error (previews p) i) as [[| | |]|] eqn:Hi; try exact IH.
      destruct (A p i r Hi) as [(resp & _ & _ & E) | E];
        cbn [dispatch] in E; rewrite Hi in E; rewrite E;
        cbn [previews set_activation set_innerHTML];
        apply Forall_update_nth; [exact I | exact IH | exact I | exact IH].
    + destruct (nth_error (previews p) i) as [[| resp | |]|] eqn:Hi;
        try exact IH.
      destruct (B p i resp r accepted Hi) as (pg1 & E & Hp & _).
      cbn [dispatch] in E; rewrite Hi in E; rewrite E.
      cbn [previews set_activation]. rewrite Hp.
      apply Forall_update_nth; [exact I | exact IH].
Qed.

Lemma C8_fetch_preview_never_rejects_witness :
  nth_error
    (previews
       (run [FetchSettled 0 (RejectedWith (Error "Failed to fetch"));
             TextSettled 0 (Resolved "<svg/>") true]
            (pending "hanja" VNull))) 0
  = Some Fulfilled.
Proof.
  exact (proj1 (proj1 (proj2 (proj2 (proj2 C8_fetch_preview_never_rejects)))
                  (pending "hanja" VNull) 0
                  (RejectedWith (Error "Failed to fetch"))
                  (Resolved "<svg/>") true eq_refl)).
Defined.

End FetchClaims.

(* ================================================================= *)
(** ** The stored id across events *)

Section IdClaims.
Import JS App Props.

(** C7. The listener of the character-set control clears the stored id and
    only then starts the preview: the page it leaves is the one
    [fetchPreview] makes of a page whose stored id is unset, so the stored
    id is unset when the request is built and when the listener returns,
    whatever an earlier fetch had stored. The request it issues is the one
    built with no id stored; its [character_id], if any, is the trimmed
    content of the id field. This holds after any history of events. *)
Theorem C7_character_set_change_clears_id (pg : page) (v : string) :
  let cleared := set_currentCharacterId VNull (set_characterSet v pg) in
  let pg' := dispatch (CharacterSetChange v) pg in
  currentCharacterId cleared = VNull
  /\ pg' = fetchPreview cleared
  /\ currentCharacterId pg' = VNull
  /\ characterSetSelect pg' = v
  /\ previews pg' = (previews pg ++ [AwaitFetch])%list
  /\ fetched pg' = (fetched pg ++ [buildApiUrl "svg" false cleared])%list
  /\ URLSearchParams.get "character_id"
       (searchParams (buildApiUrl "svg" false cleared))
     = (if Str.is_empty (Str.trim (characterIdInput pg)) then None
        else Some (Str.trim (characterIdInput pg)))
  /\ (forall evs start,
        currentCharacterId (run (evs ++ [CharacterSetChange v])%list start)
        = VNull).
Proof.
  cbv zeta.
  split; [reflexivity|]. split; [reflexivity|]. split; [reflexivity|].
  split; [reflexivity|]. split; [reflexivity|]. split; [reflexivity|].
  split.
  - destruct (Str.trim (characterIdInput pg)) as [|c t] eqn:H.
    + rewrite buildApiUrl_blank by exact H.
      now rewrite searchParams_wallpaper.
    + assert (H' : Str.trim (characterIdInput
                      (set_currentCharacterId VNull (set_characterSet v pg)))
                   <> "")
        by (cbn [characterIdInput set_currentCharacterId set_characterSet];
            rewrite H; discriminate).
      rewrite (buildApiUrl_filled _ _ _ H'), searchParams_wallpaper.
      cbn [characterIdInput set_currentCharacterId set_characterSet].
      rewrite H. reflexivity.
  - intros evs start. now rewrite run_app.
Qed.

(** C10, as stated, fails: a file name whose digits denote a value beyond
    the range of a double (here 1 followed by 309 zeros) makes [parseInt]
    return [Infinity], which the fetch stores; the stored id is then
    neither unset nor an integer. *)
Lemma C10_infinity_counterexample :
  let header :=
    "attachment; filename=wallpaper_hanja_1" ++ zeros 309 ++ ".svg" in
  let pg :=
    run (DOMContentLoaded
           :: completes 0 (mkResponse 200 (Some header)) "<svg/>")
        (initial "hanja" "iphone15" "" "") in
  reachable pg
  /\ currentCharacterId pg = VNumber PosInfinity
  /\ ~ (currentCharacterId pg = VNull \/ natural (currentCharacterId pg)).
Proof.
  cbv zeta. split; [|split].
  - unfold reachable. repeat eexists.
  - vm_compute. reflexivity.
  - assert (E : currentCharacterId
                  (run (DOMContentLoaded
                          :: completes 0
                               (mkResponse 200
                                  (Some ("attachment; filename=wallpaper_hanja_1"
                                           ++ zeros 309 ++ ".svg")))
                               "<svg/>")
                       (initial "hanja" "iphone15" "" ""))
                = VNumber PosInfinity) by (vm_compute; reflexivity).
    rewrite E. intros [H | [n H]]; discriminate H.
Qed.

Lemma dispatch_id ev pg :
  currentCharacterId (dispatch ev pg) = currentCharacterId pg
  \/ currentCharacterId (dispatch ev pg) = VNull
  \/ exists ds, ds <> "" /\ Str.forallb Str.is_digit ds = true
                /\ currentCharacterId (dispatch ev pg)
                   = VNumber (parseInt10 ds).
Proof.
  destruct ev; cbn [dispatch];
    try (left; reflexivity); try (right; left; reflexivity).
  - destruct (nth_error (previews pg) i) as [[| | |]|];
      try (left; reflexivity).
    unfold resume_fetch. destruct (try_after_fetch r); left; reflexivity.
  - destruct (nth_error (previews pg) i) as [[| resp | |]|];
      try (left; reflexivity).
    unfold resume_text, try_after_text.
    destruct r as [svgText|e]; [|left; reflexivity].
    destruct accepted; [|left; reflexivity]. cbn [negb].
    destruct (contentDisposition resp) as [h|]; [|left; reflexivity].
    destruct (negb (Str.is_empty h)); [|left; reflexivity].
    destruct (RegExp.match_filename h) as [ds|] eqn:E; [|left; reflexivity].
    right; right. exists ds.
    destruct (match_filename_sound _ _ E) as (_ & _ & _ & _ & _ & _ & Hne & Hd).
    split; [exact Hne|]. split; [exact Hd | reflexivity].
Qed.

Lemma reachable_null_or_parsed (pg : page) :
  reachable pg -> null_or_parsed (currentCharacterId pg).
Proof.
  intros (cs & im & ci & mk & evs & ->).
  induction evs as [|ev evs IH] using rev_ind; [left; reflexivity|].
  rewrite run_app. cbn [run fold_left].
  fold (run evs (initial cs im ci mk)).
  destruct (dispatch_id ev (run evs (initial cs im ci mk)))
    as [E | [E | (ds & Hne & Hd & E)]]; rewrite E.
  - exact IH.
  - left; reflexivity.
  - right. exists ds. auto.
Qed.

Lemma null_or_parsed_shape (v : value) :
  null_or_parsed v ->
  (v = VNull \/ natural v \/ v = VNumber PosInfinity)
  /\ v <> VNumber NaN
  /\ v <> VNumber NegInfinity
  /\ (forall z, v = VNumber (Finite z) -> (0 <= z)%Z)
  /\ (forall s, v <> VString s).
Proof.
  intros [E | (ds & Hne & Hd & E)]; rewrite E.
  - split; [left; reflexivity|]. repeat split; intros; discriminate.
  - rewrite (parseInt10_digits _ Hne Hd).
    destruct (round_to_double_shape (decimal_value 0 ds)) as [R | [n R]];
      rewrite R.
    + split; [right; right; reflexivity|].
      repeat split; intros; discriminate.
    + split; [right; left; exists n; reflexivity|].
      split; [discriminate|]. split; [discriminate|].
      split; [|discriminate].
      intros z Hz. injection Hz as <-. lia.
Qed.

(** C10, amended. On every page the script can reach, the stored id is
    either unset or [parseInt(ds, 10)] for a non-empty run of digits [ds]
    taken from a file-name header; such a Number is a non-negative integer
    or, when the run denotes a value beyond the range of a double,
    [Infinity]. It is never NaN, never negative and never a string, and an
    event leaves it as it is, unsets it or stores such a [parseInt]. *)
Theorem C10_id_is_null_or_parsed_digits (pg : page) :
  reachable pg ->
  null_or_parsed (currentCharacterId pg)
  /\ (currentCharacterId pg = VNull
      \/ natural (currentCharacterId pg)
      \/ currentCharacterId pg = VNumber PosInfinity)
  /\ currentCharacterId pg <> VNumber NaN
  /\ currentCharacterId pg <> VNumber NegInfinity
  /\ (forall z, currentCharacterId pg = VNumber (Finite z) -> (0 <= z)%Z)
  /\ (forall s, currentCharacterId pg <> VString s)
  /\ (forall ev,
        currentCharacterId (dispatch ev pg) = currentCharacterId pg
        \/ currentCharacterId (dispatch ev pg) = VNull
        \/ parsed_digits (currentCharacterId (dispatch ev pg))).
Proof.
  intros Hreach.
  pose proof (reachable_null_or_parsed pg Hreach) as Inv.
  destruct (null_or_parsed_shape _ Inv) as (H1 & H2 & H3 & H4 & H5).
  split; [exact Inv|]. split; [exact H1|]. split; [exact H2|].
  split; [exact H3|]. split; [exact H4|]. split; [exact H5|].
  intros ev. apply dispatch_id.
Qed.

Lemma C10_id_is_null_or_parsed_digits_witness :
  null_or_parsed
    (currentCharacterId
       (run (DOMContentLoaded
               :: completes 0
                    (mkResponse 200
                       (Some "attachment; filename=wallpaper_hanja_123.svg"))
                    "<svg/>")
            (initial "hanja" "iphone15" "" ""))).
Proof.
  refine (proj1 (C10_id_is_null_or_parsed_digits _ _)).
  exists "hanja", "iphone15", "", "".
  eexists. reflexivity.
Defined.

End IdClaims.

(* ================================================================= *)
(** ** Decimal numerals and Numbers *)

Section NumeralFacts.
Import JS Props.

Ltac each_digit c H :=
  destruct c as [[] [] [] [] [] [] [] []]; try discriminate H.

Lemma digits_parse s :
  Str.forallb Str.is_digit s = true ->
  exists u, NilEmpty.uint_of_string s = Some u.
Proof.
  induction s as [|c s IH]; simpl; [eauto|].
  intros H; apply andb_prop in H as [Hc Hs].
  destruct (IH Hs) as [u ->].
  each_digit c Hc; simpl; eauto.
Qed.

Lemma decimal_value_acc s : forall u acc,
  NilEmpty.uint_of_string s = Some u ->
  decimal_value (Npos acc) s = Npos (Pos.of_uint_acc u acc).
Proof.
  induction s as [|c s IH]; intros u acc H; simpl in H.
  - injection H as <-. reflexivity.
  - destruct (NilEmpty.uint_of_string s) as [u'|]; [|discriminate].
    apply uint_of_char_spec in H.
    cbn [decimal_value].
    destruct H as
      [[-> ->]|[[-> ->]|[[-> ->]|[[-> ->]|[[-> ->]|[[-> ->]|[[-> ->]|[[-> ->]|[[-> ->]|[-> ->]]]]]]]]]];
      cbn [Pos.of_uint_acc]; rewrite <- (IH u') by reflexivity;
      f_equal;
      match goal with
      | |- context [digit_value ?c] =>
          let v := eval vm_compute in (digit_value c) in
          change (digit_value c) with v
      end; lia.
Qed.

Lemma decimal_value_of_uint s : forall u,
  NilEmpty.uint_of_string s = Some u ->
  decimal_value 0 s = N.of_uint u.
Proof.
  induction s as [|c s IH]; intros u H; simpl in H.
  - injection H as <-. reflexivity.
  - destruct (NilEmpty.uint_of_string s) as [u'|] eqn:E; [|discriminate].
    apply uint_of_char_spec in H.
    cbn [decimal_value].
    destruct H as
      [[-> ->]|[[-> ->]|[[-> ->]|[[-> ->]|[[-> ->]|[[-> ->]|[[-> ->]|[[-> ->]|[[-> ->]|[-> ->]]]]]]]]]];
      unfold N.of_uint; cbn [Pos.of_uint];
      first [ apply (IH u' eq_refl)
            | apply (decimal_value_acc s u' _ E) ].
Qed.

(** Printing the value of a numeral that has no leading zero gives the
    numeral back. *)
Lemma decimal_decimal_value c r :
  Str.is_digit c = true -> negb (Ascii.eqb c "0") = true ->
  Str.forallb Str.is_digit r = true ->
  decimal (decimal_value 0 (String c r)) = String c r.
Proof.
  intros Hc Hz Hr. destruct (digits_parse r Hr) as [u' E].
  pose proof (NilEmpty.sus r u' E) as Hs.
  unfold decimal.
  each_digit c Hc; try discriminate Hz;
    match goal with
    | |- context [decimal_value 0 (String ?c r)] =>
        rewrite (decimal_value_of_uint (String c r) _
                   (f_equal (uint_of_char c) E))
    end;
    rewrite DecimalN.Unsigned.to_of; cbn; now rewrite Hs.
Qed.

Lemma digit_value_le c : Str.is_digit c = true -> (digit_value c <= 9)%N.
Proof. intros H. each_digit c H; vm_compute; discriminate. Qed.

Lemma decimal_value_bound s : forall acc,
  Str.forallb Str.is_digit s = true ->
  (decimal_value acc s < (acc + 1) * 10 ^ N.of_nat (String.length s))%N.
Proof.
  induction s as [|c s IH]; intros acc H.
  - cbn. lia.
  - simpl in H. apply andb_prop in H as [Hc Hs].
    cbn [decimal_value String.length].
    pose proof (IH (acc * 10 + digit_value c)%N Hs) as B.
    pose proof (digit_value_le c Hc) as D.
    rewrite Nat2N.inj_succ, N.pow_succ_r'. nia.
Qed.

Lemma decimal_value_zeros n s :
  decimal_value 0 (zeros n ++ s) = decimal_value 0 s.
Proof. induction n as [|n IH]; [reflexivity | exact IH]. Qed.

Lemma round_to_double_small m :
  (m < 2 ^ 53)%N -> round_to_double m = Finite (Z.of_N m).
Proof.
  intros H. unfold round_to_double.
  apply N.ltb_lt in H. now rewrite H.
Qed.

(** Rounding never takes a value of at least [2^53] below [2^53]. *)
Lemma round_to_double_large m :
  (2 ^ 53 <= m)%N ->
  match round_to_double m with
  | Finite z => (2 ^ 53 <= z)%Z
  | _ => True
  end.
Proof.
  intros H. unfold round_to_double.
  destruct (N.ltb_spec m (2 ^ 53)) as [Hlt|_]; [lia|].
  cbv zeta.
  set (e := (N.log2 m - 52)%N).
  set (q := N.shiftr m e).
  match goal with
  | |- context [if ?b then (q + 1)%N else q] =>
      set (q' := if b then (q + 1)%N else q)
  end.
  destruct (2 ^ 1024 <=? q' * 2 ^ e)%N; [exact I|].
  assert (Hm : (0 < m)%N) by (assert (0 < 2 ^ 53)%N by (apply N.neq_0_lt_0, N.pow_nonzero; lia); lia).
  assert (HL : (53 <= N.log2 m)%N).
  { rewrite <- (N.log2_pow2 53) by lia. now apply N.log2_le_mono. }
  assert (Hpow : (2 ^ N.log2 m = 2 ^ 52 * 2 ^ e)%N).
  { rewrite <- N.pow_add_r. f_equal. unfold e. lia. }
  assert (He : (0 < 2 ^ e)%N) by (apply N.neq_0_lt_0, N.pow_nonzero; lia).
  assert (Hq : (2 ^ 52 <= q)%N).
  { unfold q. rewrite N.shiftr_div_pow2.
    apply N.div_le_lower_bound; [lia|].
    rewrite N.mul_comm, <- Hpow. now apply N.log2_spec. }
  assert (Hq' : (q <= q')%N)
    by (unfold q'; match goal with |- context [if ?b then _ else _] =>
                     destruct b end; lia).
  assert (H53 : (2 ^ 53 <= 2 ^ N.log2 m)%N) by (apply N.pow_le_mono_r; lia).
  assert (Hv : (2 ^ 53 <= q' * 2 ^ e)%N).
  { rewrite Hpow in H53. nia. }
  change (2 ^ 53)%Z with (Z.of_N (2 ^ 53)). lia.
Qed.

Lemma shortest_small fuel : forall k nd x,
  (x < 2 ^ 53)%N -> shortest fuel k nd x = x.
Proof.
  induction fuel as [|fuel IH]; intros k nd x Hx; [reflexivity|].
  cbn [shortest]. cbv zeta.
  set (scale := (10 ^ (nd - k))%N).
  assert (Hs : (0 < scale)%N) by (apply N.neq_0_lt_0, N.pow_nonzero; lia).
  set (lo := (x / scale * scale)%N).
  assert (Hlo : (lo <= x)%N)
    by (unfold lo; rewrite N.mul_comm; apply N.Div0.mul_div_le).
  assert (Hhi : (x < lo + scale)%N).
  { unfold lo. pose proof (N.div_mod x scale ltac:(lia)) as E.
    pose proof (N.mod_lt x scale ltac:(lia)). nia. }
  rewrite (round_to_double_small lo) by lia.
  assert (Hok : match round_to_double (lo + scale) with
                | Finite z => (z =? Z.of_N x)%Z
                | _ => false
                end = false).
  { destruct (N.lt_ge_cases (lo + scale) (2 ^ 53)) as [Hc|Hc].
    - rewrite round_to_double_small by exact Hc. apply Z.eqb_neq. lia.
    - pose proof (round_to_double_large _ Hc) as R.
      destruct (round_to_double (lo + scale)); try reflexivity.
      apply Z.eqb_neq.
      assert (Z.of_N x < 2 ^ 53)%Z
        by (change (2 ^ 53)%Z with (Z.of_N (2 ^ 53)); lia).
      lia. }
  rewrite Hok.
  destruct (Z.eqb_spec (Z.of_N lo) (Z.of_N x)) as [E|_]; [lia|].
  now apply IH.
Qed.

(** Number::toString after [parseInt], on a numeral of at most 15 digits
    with no leading zero: the numeral itself. *)
Lemma number_to_string_parseInt10 d :
  Traces.short_numeral d = true -> number_to_string (parseInt10 d) = d.
Proof.
  unfold Traces.short_numeral. intros H.
  apply andb_prop in H as [H Hz]. apply andb_prop in H as [Hd Hlen].
  destruct d as [|c r]; [discriminate|].
  pose proof Hd as Hd'. simpl in Hd'. apply andb_prop in Hd' as [Hc Hr].
  rewrite parseInt10_digits by (assumption || discriminate).
  assert (Hb : (decimal_value 0 (String c r) < 2 ^ 53)%N).
  { pose proof (decimal_value_bound (String c r) 0 Hd) as B.
    apply Nat.leb_le in Hlen.
    assert ((10 ^ N.of_nat (String.length (String c r)) <= 10 ^ 15)%N)
      by (apply N.pow_le_mono_r; lia).
    assert ((10 ^ 15 < 2 ^ 53)%N) by (vm_compute; reflexivity).
    lia. }
  rewrite round_to_double_small by exact Hb.
  pose proof (decimal_decimal_value c r Hc Hz Hr) as R.
  destruct (decimal_value 0 (String c r)) as [|p] eqn:E.
  - exact R.
  - cbn [Z.of_N number_to_string]. unfold positive_to_string.
    rewrite shortest_small by exact Hb. rewrite R.
    apply Nat.leb_le in Hlen.
    destruct (N.leb_spec (N.of_nat (String.length (String c r))) 21);
      [reflexivity | lia].
Qed.

End NumeralFacts.

(* ================================================================= *)
(** ** More on the URLs *)

Section UrlProperties.
Import JS App Props Traces.

Lemma buildApiUrl_no_id outputType pg :
  Str.trim (characterIdInput pg) = "" ->
  currentCharacterId pg = VNull ->
  buildApiUrl outputType true pg
  = "/hanja-api/wallpaper?" ++ URLSearchParams.toString (base_params outputType pg).
Proof. intros H Hid. unfold buildApiUrl. now rewrite H, Hid. Qed.

Lemma buildApiUrl_shape outputType useCurrentId pg :
  exists tail,
    buildApiUrl outputType useCurrentId pg
    = "/hanja-api/wallpaper?"
        ++ URLSearchParams.toString (base_params outputType pg ++ tail)%list
    /\ (tail = [] \/ exists v, tail = [("character_id", v)]).
Proof.
  destruct (string_dec (Str.trim (characterIdInput pg)) "") as [H|H].
  - destruct useCurrentId.
    + destruct (currentCharacterId pg) eqn:Hid.
      * exists []. rewrite (buildApiUrl_no_id _ _ H Hid). auto.
      * eexists. rewrite (buildApiUrl_reuse _ _ H) by (rewrite Hid; discriminate).
        split; [reflexivity | right; eauto].
      * eexists. rewrite (buildApiUrl_reuse _ _ H) by (rewrite Hid; discriminate).
        split; [reflexivity | right; eauto].
    + exists []. rewrite (buildApiUrl_blank _ _ H). auto.
  - eexists. rewrite (buildApiUrl_filled _ _ _ H).
    split; [reflexivity | right; eauto].
Qed.

Lemma buildApiUrl_output_type outputType useCurrentId pg :
  URLSearchParams.get "output_type"
    (searchParams (buildApiUrl outputType useCurrentId pg))
  = Some outputType.
Proof.
  destruct (buildApiUrl_shape outputType useCurrentId pg) as (tail & -> & _).
  now rewrite searchParams_wallpaper.
Qed.

(** What a URL built by [buildApiUrl] reads back as, for every output kind,
    flag and page: the path is [/hanja-api/wallpaper]; the query holds
    [output_type], [character_list] and [iphone_model], in this order, with
    the argument and the two controls' values byte for byte, whatever bytes
    these hold, followed by at most one [character_id]; and [character_id]
    is missing exactly when the id field trims to nothing and either id
    reuse is off or no id is stored. *)
Theorem buildApiUrl_reads_back
        (outputType : string) (useCurrentId : bool) (pg : page) :
  let url := buildApiUrl outputType useCurrentId pg in
  let q := searchParams url in
  path_of url = "/hanja-api/wallpaper"
  /\ (q = base_params outputType pg
      \/ exists v, q = (base_params outputType pg ++ [("character_id", v)])%list)
  /\ URLSearchParams.get "output_type" q = Some outputType
  /\ URLSearchParams.get "character_list" q = Some (characterSetSelect pg)
  /\ URLSearchParams.get "iphone_model" q = Some (iphoneModelSelect pg)
  /\ (URLSearchParams.get "character_id" q = None
      <-> Str.trim (characterIdInput pg) = ""
          /\ (useCurrentId = false \/ currentCharacterId pg = VNull)).
Proof.
  cbv zeta.
  destruct (string_dec (Str.trim (characterIdInput pg)) "") as [H|H].
  - destruct useCurrentId.
    + destruct (currentCharacterId pg) eqn:Hid.
      * rewrite (buildApiUrl_no_id _ _ H Hid), searchParams_wallpaper.
        repeat split; auto.
      * rewrite (buildApiUrl_reuse _ _ H) by (rewrite Hid; discriminate).
        rewrite searchParams_wallpaper.
        split; [reflexivity|]. split; [right; eauto|].
        repeat split; try discriminate.
        intros [_ [E|E]]; discriminate E.
      * rewrite (buildApiUrl_reuse _ _ H) by (rewrite Hid; discriminate).
        rewrite searchParams_wallpaper.
        split; [reflexivity|]. split; [right; eauto|].
        repeat split; try discriminate.
        intros [_ [E|E]]; discriminate E.
    + rewrite (buildApiUrl_blank _ _ H), searchParams_wallpaper.
      repeat split; auto.
  - rewrite (buildApiUrl_filled _ _ _ H), searchParams_wallpaper.
    split; [reflexivity|]. split; [right; eauto|].
    repeat split; try discriminate.
    intros [E _]. contradiction.
Qed.

End UrlProperties.

(* ================================================================= *)
(** ** Listeners *)

Section ListenerProperties.
Import JS App Props Traces.

(** Every listener that starts a preview shows the loading markup before it
    returns, adds one pending preview and hands [fetch] one URL: the [svg]
    URL of the controls as they stand when the listener runs, built without
    the stored id. It clicks nothing. *)
Theorem preview_start_shows_loading (ev : event) (pg : page) :
  starts_preview ev = true ->
  let pg' := dispatch ev pg in
  previewContainer pg' = loading_markup
  /\ previews pg' = (previews pg ++ [AwaitFetch])%list
  /\ fetched pg' = (fetched pg ++ [buildApiUrl "svg" false pg'])%list
  /\ URLSearchParams.get "output_type"
       (searchParams (buildApiUrl "svg" false pg')) = Some "svg"
  /\ (forall id, buildApiUrl "svg" false (set_currentCharacterId id pg')
                 = buildApiUrl "svg" false pg')
  /\ clicked pg' = clicked pg.
Proof.
  intros Hev pg'.
  assert (Hout : forall p, URLSearchParams.get "output_type"
                             (searchParams (buildApiUrl "svg" false p))
                           = Some "svg")
    by (intros p; apply buildApiUrl_output_type).
  assert (Hid : forall p id, buildApiUrl "svg" false (set_currentCharacterId id p)
                             = buildApiUrl "svg" false p).
  { intros p id. unfold buildApiUrl.
    cbn [characterIdInput characterSetSelect iphoneModelSelect
         set_currentCharacterId andb]. reflexivity. }
  subst pg'.
  destruct ev; try discriminate Hev; cbn [dispatch];
    (split; [reflexivity|]); (split; [reflexivity|]);
    (split; [reflexivity|]); (split; [apply Hout|]);
    (split; [intros id; apply Hid | reflexivity]).
Qed.

Lemma preview_start_shows_loading_witness :
  previewContainer (dispatch RefreshClick (settled_page (VNumber (Finite 7))))
  = loading_markup.
Proof.
  exact (proj1 (preview_start_shows_loading RefreshClick
                  (settled_page (VNumber (Finite 7))) eq_refl)).
Defined.

(** A download that follows a listener that unsets the stored id (refresh,
    change of character set, change of the id field), with the id field
    blank, asks for no particular character: the anchor's target holds the
    three base parameters for [png] and no [character_id], and the suggested
    name ends in [_random.png], although a preview has just been requested. *)
Theorem download_after_clearing (ev : event) (pg : page) :
  clears_id ev = true ->
  Str.trim (characterIdInput pg) = "" ->
  exists a,
    clicked (run [ev; DownloadClick] pg) = (clicked pg ++ [a])%list
    /\ searchParams (href a)
       = [ ("output_type", "png");
           ("character_list", characterSetSelect (dispatch ev pg));
           ("iphone_model", iphoneModelSelect pg) ]
    /\ download a
       = "wallpaper_" ++ characterSetSelect (dispatch ev pg) ++ "_random.png".
Proof.
  intros Hev H. unfold run. cbn [fold_left].
  assert (Hz : forall p, Str.trim (characterIdInput p) = "" ->
                         currentCharacterId p = VNull ->
                         searchParams (buildApiUrl "png" true p)
                         = base_params "png" p).
  { intros p Hp Hid.
    now rewrite (buildApiUrl_no_id _ _ Hp Hid), searchParams_wallpaper. }
  destruct ev; try discriminate Hev; cbn [dispatch];
    (eexists; split; [reflexivity|]); cbn [href download];
    (split; [apply Hz; [exact H | reflexivity] | reflexivity]).
Qed.

Lemma download_after_clearing_witness :
  exists a,
    clicked (run [CharacterSetChange "hangul"; DownloadClick]
                 (settled_page (VNumber (Finite 7)))) = [a]
    /\ download a = "wallpaper_hangul_random.png".
Proof.
  destruct (download_after_clearing (CharacterSetChange "hangul")
              (settled_page (VNumber (Finite 7))) eq_refl eq_refl)
    as (a & Hc & _ & Hd).
  exists a. split; [exact Hc | exact Hd].
Defined.

(** A download that follows a change of the device model, with the id field
    blank and an id stored, still asks for the stored id, now for the new
    model: the listener of the model control keeps the id. *)
Theorem download_after_model_change (v : string) (pg : page) :
  Str.trim (characterIdInput pg) = "" ->
  currentCharacterId pg <> VNull ->
  exists a,
    clicked (run [IphoneModelChange v; DownloadClick] pg)
    = (clicked pg ++ [a])%list
    /\ searchParams (href a)
       = [ ("output_type", "png");
           ("character_list", characterSetSelect pg);
           ("iphone_model", v);
           ("character_id", ToString (currentCharacterId pg)) ]
    /\ currentCharacterId (run [IphoneModelChange v; DownloadClick] pg)
       = currentCharacterId pg.
Proof.
  intros H Hid. unfold run. cbn [fold_left dispatch].
  eexists. split; [reflexivity|]. cbn [href]. split; [|reflexivity].
  rewrite buildApiUrl_reuse; [| exact H | exact Hid].
  now rewrite searchParams_wallpaper.
Qed.

Lemma download_after_model_change_witness :
  exists a,
    clicked (run [IphoneModelChange "iphone16"; DownloadClick]
                 (settled_page (VNumber (Finite 7)))) = [a]
    /\ searchParams (href a)
       = [ ("output_type", "png"); ("character_list", "hanja");
           ("iphone_model", "iphone16"); ("character_id", "7") ].
Proof.
  destruct (download_after_model_change "iphone16"
              (settled_page (VNumber (Finite 7))) eq_refl)
    as (a & Hc & Hq & _); [discriminate|].
  exists a. split; [exact Hc | exact Hq].
Defined.

End ListenerProperties.

(* ================================================================= *)
(** ** Previews in flight *)

Section PreviewProperties.
Import JS App Props Traces.

Lemma nth_error_update_nth_other {A} i j (x : A) l :
  i <> j -> nth_error (update_nth j x l) i = nth_error l i.
Proof.
  revert i j; induction l as [|y l IH]; intros [|i] [|j] H; simpl;
    try reflexivity; try congruence.
  apply IH. congruence.
Qed.

(** Every way a preview can fail has the same effect on the page: the
    container takes the error markup and the preview is settled, fulfilled;
    the controls, the stored id, the requests made, the anchors clicked and
    the other previews are as before. *)
Theorem failure_only_shows_error (i : nat) (ev : event) (pg : page) :
  fails i ev pg = true ->
  let pg' := dispatch ev pg in
  pg' = set_activation i Fulfilled (set_innerHTML error_markup pg)
  /\ previewContainer pg' = error_markup
  /\ nth_error (previews pg') i = Some Fulfilled
  /\ currentCharacterId pg' = currentCharacterId pg
  /\ fetched pg' = fetched pg
  /\ clicked pg' = clicked pg
  /\ List.length (previews pg') = List.length (previews pg)
  /\ (forall j, j <> i -> nth_error (previews pg') j = nth_error (previews pg) j).
Proof.
  intros Hf pg'.
  assert (E : pg' = set_activation i Fulfilled (set_innerHTML error_markup pg)
              /\ exists a, nth_error (previews pg) i = Some a).
  { subst pg'. unfold fails in Hf.
    destruct ev as [| | | | | | | j r | j r accepted]; try discriminate Hf.
    - destruct r as [resp|e];
        destruct (nth_error (previews pg) i) as [[| | |]|] eqn:Hi;
        try discriminate Hf.
      + apply andb_prop in Hf as [Hj Hok]. apply Nat.eqb_eq in Hj. subst j.
        cbn [dispatch]. rewrite Hi. unfold resume_fetch, try_after_fetch.
        rewrite Hok. split; [reflexivity | eauto].
      + apply Nat.eqb_eq in Hf. subst j.
        cbn [dispatch]. rewrite Hi. split; [reflexivity | eauto].
    - destruct r as [svgText|e].
      + destruct accepted; [discriminate Hf|].
        destruct (nth_error (previews pg) i) as [[| resp | |]|] eqn:Hi;
          try discriminate Hf.
        apply Nat.eqb_eq in Hf. subst j.
        cbn [dispatch]. rewrite Hi. split; [reflexivity | eauto].
      + destruct (nth_error (previews pg) i) as [[| resp | |]|] eqn:Hi;
          try discriminate Hf.
        apply Nat.eqb_eq in Hf. subst j.
        cbn [dispatch]. rewrite Hi. split; [reflexivity | eauto]. }
  destruct E as [E [a Ha]]. rewrite E. clear E pg'.
  split; [reflexivity|]. split; [reflexivity|].
  split; [exact (nth_error_update_nth i Fulfilled a _ Ha)|].
  split; [reflexivity|]. split; [reflexivity|]. split; [reflexivity|].
  split; [apply update_nth_length|].
  intros j Hj. now apply nth_error_update_nth_other.
Qed.

Lemma failure_only_shows_error_witness :
  currentCharacterId
    (dispatch (FetchSettled 0 (RejectedWith (Error "Failed to fetch")))
              (pending "hanja" (VNumber (Finite 7))))
  = VNumber (Finite 7).
Proof.
  exact (proj1 (proj2 (proj2 (proj2
    (failure_only_shows_error 0
       (FetchSettled 0 (RejectedWith (Error "Failed to fetch")))
       (pending "hanja" (VNumber (Finite 7))) eq_refl))))).
Defined.

Lemma dispatch_fulfilled ev pg i :
  nth_error (previews pg) i = Some Fulfilled ->
  nth_error (previews (dispatch ev pg)) i = Some Fulfilled.
Proof.
  intros Hi.
  assert (Hstart : forall q, nth_error (previews q) i = Some Fulfilled ->
                             nth_error (previews (fetchPreview q)) i
                             = Some Fulfilled).
  { intros q Hq. cbn. rewrite nth_error_app1; [exact Hq|].
    apply nth_error_Some. congruence. }
  assert (Hset : forall j a q, nth_error (previews q) i = Some Fulfilled ->
                               nth_error (previews q) j <> Some Fulfilled ->
                               nth_error (previews (set_activation j a q)) i
                               = Some Fulfilled).
  { intros j a q Hq Hj. cbn [previews set_activation].
    rewrite nth_error_update_nth_other; [exact Hq | congruence]. }
  destruct ev as [| | | | | | | j r | j r accepted]; cbn [dispatch];
    try (apply Hstart; exact Hi); try exact Hi.
  - destruct (nth_error (previews pg) j) as [[| | |]|] eqn:Hj; try exact Hi.
    unfold resume_fetch.
    destruct (try_after_fetch r); cbn [try_catch on_error settle];
      apply Hset; cbn [previews set_innerHTML]; congruence.
  - destruct (nth_error (previews pg) j) as [[| resp | |]|] eqn:Hj;
      try exact Hi.
    unfold resume_text.
    destruct (try_after_text resp r accepted pg) as [pg1|e] eqn:Ht;
      cbn [try_catch on_error settle].
    + assert (Hp : previews pg1 = previews pg).
      { unfold try_after_text in Ht.
        destruct r as [svgText|e]; [|discriminate Ht].
        destruct (negb accepted); [discriminate Ht|].
        destruct (contentDisposition resp) as [h|];
          [destruct (negb (Str.is_empty h));
             [destruct (RegExp.match_filename h)|]|];
          injection Ht as <-; reflexivity. }
      apply Hset; rewrite Hp; congruence.
    + apply Hset; cbn [previews set_innerHTML]; congruence.
Qed.

(** A settled preview stays settled: once preview [i] is fulfilled, no
    history of events changes that, and a settlement addressed to it leaves
    the whole page as it is. The script keeps no way to run a preview
    twice. *)
Lemma fulfilled_is_final (evs : list event) (pg : page) (i : nat) :
  nth_error (previews pg) i = Some Fulfilled ->
  nth_error (previews (run evs pg)) i = Some Fulfilled
  /\ (forall r, dispatch (FetchSettled i r) (run evs pg) = run evs pg)
  /\ (forall r accepted,
        dispatch (TextSettled i r accepted) (run evs pg) = run evs pg).
Proof.
  intros Hi.
  assert (H : nth_error (previews (run evs pg)) i = Some Fulfilled).
  { revert pg Hi. induction evs as [|ev evs IH]; intros pg Hi; [exact Hi|].
    apply IH. now apply dispatch_fulfilled. }
  split; [exact H|].
  split; intros; cbn [dispatch]; now rewrite H.
Qed.

Lemma dispatch_counts ev pg :
  List.length (fetched (dispatch ev pg))
  = (List.length (fetched pg) + (if starts_preview ev then 1 else 0))%nat
  /\ List.length (previews (dispatch ev pg))
     = (List.length (previews pg) + (if starts_preview ev then 1 else 0))%nat
  /\ List.length (clicked (dispatch ev pg))
     = (List.length (clicked pg) + (if is_download ev then 1 else 0))%nat.
Proof.
  assert (Hset : forall j a q,
            List.length (previews (set_activation j a q))
            = List.length (previews q))
    by (intros; apply update_nth_length).
  destruct ev as [| | | | | | | j r | j r accepted];
    cbn [dispatch starts_preview is_download];
    try (cbn; rewrite ?length_app; cbn; repeat split; lia).
  - destruct (nth_error (previews pg) j) as [[| | |]|];
      try (repeat split; lia).
    unfold resume_fetch. destruct (try_after_fetch r);
      cbn [try_catch on_error settle]; rewrite Hset;
      cbn; repeat split; lia.
  - destruct (nth_error (previews pg) j) as [[| resp | |]|];
      try (repeat split; lia).
    unfold resume_text, try_after_text.
    destruct r as [svgText|e];
      [destruct (negb accepted);
         [|destruct (contentDisposition resp) as [h|];
             [destruct (negb (Str.is_empty h));
                [destruct (RegExp.match_filename h)|]|]]|];
      cbn [try_catch on_error settle]; rewrite Hset;
      cbn; repeat split; lia.
Qed.

(** Over any history, the script makes exactly one request and starts
    exactly one preview for each event whose listener calls [fetchPreview],
    and clicks exactly one anchor for each click on the download control:
    no settlement of a preview, failed or not, causes another request. *)
Theorem one_request_per_preview (evs : list event) (pg : page) :
  List.length (fetched (run evs pg))
  = (List.length (fetched pg) + List.length (filter starts_preview evs))%nat
  /\ List.length (previews (run evs pg))
     = (List.length (previews pg) + List.length (filter starts_preview evs))%nat
  /\ List.length (clicked (run evs pg))
     = (List.length (clicked pg) + List.length (filter is_download evs))%nat.
Proof.
  revert pg. induction evs as [|ev evs IH]; intros pg.
  - cbn. repeat split; lia.
  - change (run (ev :: evs) pg) with (run evs (dispatch ev pg)).
    destruct (IH (dispatch ev pg)) as (F & P & C).
    destruct (dispatch_counts ev pg) as (F1 & P1 & C1).
    rewrite F, P, C, F1, P1, C1. cbn [filter].
    destruct (starts_preview ev), (is_download ev); cbn [List.length];
      repeat split; lia.
Qed.

End PreviewProperties.

(* ================================================================= *)
(** ** Histories *)

Section HistoryProperties.
Import JS App Props Traces.

Lemma dispatch_kinds ev pg :
  Forall svg_url (fetched pg) -> Forall png_anchor (clicked pg) ->
  Forall svg_url (fetched (dispatch ev pg))
  /\ Forall png_anchor (clicked (dispatch ev pg)).
Proof.
  intros Hf Hc.
  assert (Hstart : forall q, Forall svg_url (fetched q) ->
                             Forall png_anchor (clicked q) ->
                             Forall svg_url (fetched (fetchPreview q))
                             /\ Forall png_anchor (clicked (fetchPreview q))).
  { intros q Hq Hq'. split; [|exact Hq'].
    unfold fetchPreview, fetch. cbn [fetched].
    apply Forall_app. split; [exact Hq|].
    constructor; [apply buildApiUrl_output_type | constructor]. }
  destruct ev as [| | | | | | | j r | j r accepted]; cbn [dispatch];
    try (apply Hstart; assumption); try (split; assumption).
  - split; [exact Hf|]. unfold downloadPng, click. cbn [clicked].
    apply Forall_app. split; [exact Hc|].
    constructor; [apply buildApiUrl_output_type | constructor].
  - destruct (nth_error (previews pg) j) as [[| | |]|]; try (split; assumption).
    unfold resume_fetch. destruct (try_after_fetch r); split; assumption.
  - destruct (nth_error (previews pg) j) as [[| resp | |]|];
      try (split; assumption).
    unfold resume_text, try_after_text.
    destruct r as [svgText|e];
      [destruct (negb accepted);
         [|destruct (contentDisposition resp) as [h|];
             [destruct (negb (Str.is_empty h));
                [destruct (RegExp.match_filename h)|]|]]|];
      split; assumption.
Qed.

(** On every page the script can reach, each URL handed to [fetch] has the
    output kind [svg] and each anchor clicked targets the output kind
    [png]: the script never fetches a [png] and never offers an [svg] for
    download. *)
Theorem fetch_svg_download_png (pg : page) :
  reachable pg ->
  Forall (fun u => URLSearchParams.get "output_type" (searchParams u)
                   = Some "svg") (fetched pg)
  /\ Forall (fun a => URLSearchParams.get "output_type" (searchParams (href a))
                      = Some "png") (clicked pg).
Proof.
  intros (cs & im & ci & mk & evs & ->).
  induction evs as [|ev evs IH] using rev_ind.
  - split; constructor.
  - rewrite run_app. cbn [run fold_left].
    fold (run evs (initial cs im ci mk)).
    destruct IH as [Hf Hc]. exact (dispatch_kinds ev _ Hf Hc).
Qed.

Lemma fetch_svg_download_png_witness :
  Forall (fun u => URLSearchParams.get "output_type" (searchParams u)
                   = Some "svg")
    (fetched (run [DOMContentLoaded; DownloadClick; RefreshClick]
                  (initial "hanja" "iphone15" "12" ""))).
Proof.
  refine (proj1 (fetch_svg_download_png _ _)).
  exists "hanja", "iphone15", "12", "".
  eexists. reflexivity.
Defined.

Lemma delivered_cons ev evs c :
  In c (delivered evs) -> In c (delivered (ev :: evs)).
Proof.
  intros H. destruct ev as [| | | | | | | j r | j [svgText|e] accepted];
    cbn [delivered]; try exact H. now right.
Qed.

Lemma dispatch_container ev pg :
  previewContainer (dispatch ev pg) = previewContainer pg
  \/ previewContainer (dispatch ev pg) = loading_markup
  \/ previewContainer (dispatch ev pg) = error_markup
  \/ In (previewContainer (dispatch ev pg)) (delivered [ev]).
Proof.
  destruct ev as [| | | | | | | j r | j r accepted]; cbn [dispatch];
    try (left; reflexivity); try (right; left; reflexivity).
  - destruct (nth_error (previews pg) j) as [[| | |]|];
      try (left; reflexivity).
    unfold resume_fetch. destruct (try_after_fetch r);
      [left; reflexivity | right; right; left; reflexivity].
  - destruct (nth_error (previews pg) j) as [[| resp | |]|];
      try (left; reflexivity).
    unfold resume_text, try_after_text.
    destruct r as [svgText|e]; [|right; right; left; reflexivity].
    destruct accepted; [|right; right; left; reflexivity].
    cbn [negb].
    destruct (contentDisposition resp) as [h|];
      [destruct (negb (Str.is_empty h));
         [destruct (RegExp.match_filename h)|]|];
      right; right; right; left; reflexivity.
Qed.

(** Whatever the history, the preview container holds one of four things:
    the markup it had at the start, the loading markup, the error markup, or
    a response text that the history delivered. Nothing else is ever
    written into the page: no URL, no header, no message of an error. *)
Theorem container_holds_known_markup (evs : list event) (pg : page) :
  previewContainer (run evs pg) = previewContainer pg
  \/ previewContainer (run evs pg) = loading_markup
  \/ previewContainer (run evs pg) = error_markup
  \/ In (previewContainer (run evs pg)) (delivered evs).
Proof.
  revert pg. induction evs as [|ev evs IH]; intros pg; [left; reflexivity|].
  change (run (ev :: evs) pg) with (run evs (dispatch ev pg)).
  destruct (IH (dispatch ev pg)) as [E | [E | [E | E]]].
  - rewrite E.
    destruct (dispatch_container ev pg) as [D | [D | [D | D]]]; auto.
    right; right; right.
    destruct ev as [| | | | | | | j r | j [svgText|e] accepted];
      cbn [delivered] in *; try contradiction.
    destruct D as [D | []]. now left.
  - auto.
  - auto.
  - right; right; right. now apply delivered_cons.
Qed.

End HistoryProperties.

(* ================================================================= *)
(** ** A preview that completes *)

Section CompletionProperties.
Import JS App Props Traces.

Lemma update_nth_twice {A} i (a b : A) l :
  update_nth i b (update_nth i a l) = update_nth i b l.
Proof.
  revert l. induction i as [|k IH]; intros [|x l]; simpl; try reflexivity.
  now rewrite IH.
Qed.

(** The page a completed preview leaves: the text is in the container, the
    preview is fulfilled, and the rest, the stored id apart, is as before. *)
Lemma completes_page i resp svgText pg :
  nth_error (previews pg) i = Some AwaitFetch ->
  ok resp = true ->
  let pg' := run (completes i resp svgText) pg in
  previewContainer pg' = svgText
  /\ previews pg' = update_nth i Fulfilled (previews pg)
  /\ characterSetSelect pg' = characterSetSelect pg
  /\ iphoneModelSelect pg' = iphoneModelSelect pg
  /\ characterIdInput pg' = characterIdInput pg
  /\ fetched pg' = fetched pg
  /\ clicked pg' = clicked pg.
Proof.
  intros Hi Hok pg'. subst pg'. rewrite completes_run by assumption.
  pose proof (update_nth_twice (A := activation) i) as U.
  unfold resume_text, try_after_text. cbn [negb].
  destruct (contentDisposition resp) as [h|];
    [destruct (negb (Str.is_empty h));
       [destruct (RegExp.match_filename h)|]|];
    cbn; rewrite U; repeat split.
Qed.

(** A response that was requested before the character set was changed
    still takes effect when it arrives afterwards: although the listener has
    unset the stored id and shown the loading markup, the late response
    stores the id named in its header and puts its text in the container,
    while the preview the listener started is still pending. The script
    does not tell the responses of old requests from new ones. *)
Theorem late_response_overrides_change
        (pg : page) (i : nat) (resp : response) (svgText v : string)
        (pre w d post : string) :
  nth_error (previews pg) i = Some AwaitFetch ->
  ok resp = true ->
  contentDisposition resp
  = Some (pre ++ "filename=wallpaper_" ++ w ++ "_" ++ d ++ ".svg" ++ post) ->
  Str.lacks "f" pre = true ->
  w <> "" -> Str.forallb Str.is_word w = true ->
  d <> "" -> Str.forallb Str.is_digit d = true ->
  let pg' := run (CharacterSetChange v :: completes i resp svgText) pg in
  characterSetSelect pg' = v
  /\ currentCharacterId pg' = VNumber (parseInt10 d)
  /\ previewContainer pg' = svgText
  /\ nth_error (previews pg') i = Some Fulfilled
  /\ nth_error (previews pg') (List.length (previews pg)) = Some AwaitFetch.
Proof.
  intros Hi Hok Hh Hpre Hw Hww Hd Hdd pg'. subst pg'.
  change (run (CharacterSetChange v :: completes i resp svgText) pg)
    with (run (completes i resp svgText) (dispatch (CharacterSetChange v) pg)).
  set (p := dispatch (CharacterSetChange v) pg).
  assert (Hlt : (i < List.length (previews pg))%nat)
    by (apply nth_error_Some; congruence).
  assert (Hp : previews p = (previews pg ++ [AwaitFetch])%list) by reflexivity.
  assert (Hi' : nth_error (previews p) i = Some AwaitFetch)
    by (rewrite Hp, nth_error_app1 by exact Hlt; exact Hi).
  destruct (completes_page i resp svgText p Hi' Hok)
    as (Hc & Hpr & Hcs & _).
  split; [rewrite Hcs; reflexivity|].
  split.
  { rewrite completes_id, Hh by assumption.
    now rewrite match_filename_canonical. }
  split; [exact Hc|].
  rewrite Hpr. split.
  - eapply nth_error_update_nth; eauto.
  - rewrite nth_error_update_nth_other by lia.
    rewrite Hp, nth_error_app2 by lia.
    now rewrite Nat.sub_diag.
Qed.

Lemma late_response_overrides_change_witness :
  currentCharacterId
    (run (CharacterSetChange "hangul"
            :: completes 0
                 (mkResponse 200
                    (Some "attachment; filename=wallpaper_hanja_123.svg"))
                 "<svg/>")
         (pending "hanja" VNull))
  = VNumber (parseInt10 "123").
Proof.
  refine (proj1 (proj2
    (late_response_overrides_change (pending "hanja" VNull) 0
       (mkResponse 200 (Some "attachment; filename=wallpaper_hanja_123.svg"))
       "<svg/>" "hangul" "attachment; " "hanja" "123" ""
       eq_refl eq_refl eq_refl eq_refl _ eq_refl _ eq_refl)));
    discriminate.
Defined.

Lemma zeros_digits n : Str.forallb Str.is_digit (zeros n) = true.
Proof. induction n as [|n IH]; [reflexivity | exact IH]. Qed.

(** The id a preview names comes back in the download, digit for digit.
    When a preview completes with a file name whose digits are a numeral
    [d] of at most 15 digits with no leading zero, possibly written with
    zeros in front, and the id field is blank, the download that follows
    asks for [character_id=d] and suggests the name
    [wallpaper_<set>_<d>.png]: the zeros in front are dropped and nothing
    else of the number changes on its way through [parseInt] and back to
    text. *)
Theorem download_repeats_previewed_id
        (pg : page) (i : nat) (resp : response) (svgText : string)
        (pre w d post : string) (n : nat) :
  nth_error (previews pg) i = Some AwaitFetch ->
  ok resp = true ->
  contentDisposition resp
  = Some (pre ++ "filename=wallpaper_" ++ w ++ "_" ++ (zeros n ++ d)
              ++ ".svg" ++ post) ->
  Str.lacks "f" pre = true ->
  w <> "" -> Str.forallb Str.is_word w = true ->
  short_numeral d = true ->
  Str.trim (characterIdInput pg) = "" ->
  exists a,
    clicked (run (completes i resp svgText ++ [DownloadClick])%list pg)
    = (clicked pg ++ [a])%list
    /\ URLSearchParams.get "character_id" (searchParams (href a)) = Some d
    /\ download a = "wallpaper_" ++ characterSetSelect pg ++ "_" ++ d ++ ".png".
Proof.
  intros Hi Hok Hh Hpre Hw Hww Hs Hblank.
  pose proof Hs as Hs'. unfold short_numeral in Hs'.
  apply andb_prop in Hs' as [Hs' Hz]. apply andb_prop in Hs' as [Hd _].
  assert (Hne : d <> "") by (destruct d; [discriminate Hz | discriminate]).
  assert (Hzd : Str.forallb Str.is_digit (zeros n ++ d) = true)
    by (rewrite forallb_append, zeros_digits, Hd; reflexivity).
  assert (Hzne : zeros n ++ d <> "")
    by (destruct n; [exact Hne | discriminate]).
  assert (Hparse : parseInt10 (zeros n ++ d) = parseInt10 d).
  { rewrite !parseInt10_digits by assumption.
    now rewrite decimal_value_zeros. }
  pose proof (number_to_string_parseInt10 d Hs) as Hround.
  rewrite run_app.
  set (p := run (completes i resp svgText) pg).
  assert (Hid : currentCharacterId p = VNumber (parseInt10 d)).
  { unfold p. rewrite completes_id, Hh by assumption.
    rewrite match_filename_canonical by assumption. now rewrite Hparse. }
  destruct (completes_page i resp svgText pg Hi Hok)
    as (_ & _ & Hcs & _ & Hci & _ & Hcl).
  fold p in Hcs, Hci, Hcl.
  assert (Htruthy : truthy (VNumber (parseInt10 d)) = true).
  { destruct (parseInt10 d) as [[|q|q]| | |] eqn:E; try reflexivity.
    - cbn in Hround. subst d. discriminate Hz.
    - cbn in Hround. subst d. discriminate Hd. }
  cbn [run fold_left dispatch]. unfold downloadPng, click. cbn [clicked].
  eexists. split; [rewrite Hcl; reflexivity|]. cbn [href download]. split.
  - rewrite buildApiUrl_reuse;
      [| rewrite Hci; exact Hblank | rewrite Hid; discriminate].
    rewrite searchParams_wallpaper, Hid.
    cbn [ToString]. rewrite Hround. reflexivity.
  - unfold download_name, or_else. rewrite Hid, Htruthy, Hcs.
    cbn [ToString]. now rewrite Hround.
Qed.

Lemma download_repeats_previewed_id_witness :
  exists a,
    clicked (run (completes 0
                    (mkResponse 200
                       (Some "attachment; filename=wallpaper_hanja_00123.svg"))
                    "<svg/>" ++ [DownloadClick])%list
                 (pending "hanja" VNull)) = [a]
    /\ download a = "wallpaper_hanja_123.png".
Proof.
  destruct (download_repeats_previewed_id (pending "hanja" VNull) 0
              (mkResponse 200
                 (Some "attachment; filename=wallpaper_hanja_00123.svg"))
              "<svg/>" "attachment; " "hanja" "123" "" 2
              eq_refl eq_refl eq_refl eq_refl)
    as (a & Hc & _ & Hd); try reflexivity; try discriminate.
  exists a. split; [exact Hc | exact Hd].
Defined.

Lemma lacks_f_no_match s :
  Str.lacks "f" s = true -> RegExp.match_filename s = None.
Proof.
  intros H.
  assert (E : s = s ++ "")
    by (clear H; induction s as [|c s IH]; simpl; [|rewrite <- IH]; reflexivity).
  rewrite E. rewrite match_filename_skip by exact H. reflexivity.
Qed.

(** A file name given in quotes is not recognised. When the header is
    [filename=] followed by a quoted name, and the letter [f] occurs nowhere
    else in it (as in [attachment; filename="wallpaper_hanja_123.svg"]), a
    preview that completes leaves the stored id as it was, whatever digits
    the name holds. *)
Theorem quoted_filename_is_ignored
        (pg : page) (i : nat) (resp : response) (svgText : string)
        (pre name post : string) :
  nth_error (previews pg) i = Some AwaitFetch ->
  ok resp = true ->
  contentDisposition resp
  = Some (pre ++ "filename=" ++ dq ++ name ++ dq ++ post) ->
  Str.lacks "f" pre = true ->
  Str.lacks "f" name = true ->
  Str.lacks "f" post = true ->
  currentCharacterId (run (completes i resp svgText) pg)
  = currentCharacterId pg
  /\ previewContainer (run (completes i resp svgText) pg) = svgText.
Proof.
  intros Hi Hok Hh Hpre Hname Hpost.
  split; [|apply (completes_page i resp svgText pg Hi Hok)].
  rewrite completes_id, Hh by assumption.
  rewrite match_filename_skip by exact Hpre.
  assert (E : RegExp.match_filename
                ("filename=" ++ dq ++ name ++ dq ++ post) = None).
  { cbn [append dq RegExp.match_filename].
    replace (RegExp.match_here _) with (@None string) by reflexivity.
    apply lacks_f_no_match.
    change (Str.lacks "f" ("ilename=" ++ dq ++ name ++ dq ++ post) = true).
    rewrite !lacks_append, Hname, Hpost. reflexivity. }
  now rewrite E.
Qed.

Lemma quoted_filename_is_ignored_witness :
  currentCharacterId
    (run (completes 0
            (mkResponse 200
               (Some ("attachment; filename=" ++ dq ++ "wallpaper_hanja_123.svg"
                        ++ dq)))
            "<svg/>")
         (pending "hanja" (VNumber (Finite 7))))
  = VNumber (Finite 7).
Proof.
  exact (proj1
    (quoted_filename_is_ignored (pending "hanja" (VNumber (Finite 7))) 0
       (mkResponse 200
          (Some ("attachment; filename=" ++ dq ++ "wallpaper_hanja_123.svg"
                   ++ dq)))
       "<svg/>" "attachment; " "wallpaper_hanja_123.svg" ""
       eq_refl eq_refl eq_refl eq_refl eq_refl eq_refl)).
Defined.

End CompletionProperties.

(* ================================================================= *)
(** ** The text of the URLs and of the id field *)

Section TextProperties.
Import JS App Props Traces.

Ltac each_byte c :=
  destruct c as [[] [] [] [] [] [] [] []].

Lemma encode_byte_url_char c :
  Str.forallb url_char (URLSearchParams.encode_byte c) = true.
Proof. each_byte c; reflexivity. Qed.

Lemma encode_url_char s :
  Str.forallb url_char (URLSearchParams.encode s) = true.
Proof.
  induction s as [|c s IH]; [reflexivity|]. cbn [URLSearchParams.encode].
  now rewrite forallb_append, encode_byte_url_char, IH.
Qed.

Lemma toString_url_char l :
  Str.forallb url_char (URLSearchParams.toString l) = true.
Proof.
  assert (P : forall p, Str.forallb url_char (URLSearchParams.encode_pair p)
                        = true).
  { intros p. unfold URLSearchParams.encode_pair.
    rewrite !forallb_append, !encode_url_char. reflexivity. }
  induction l as [|p l IH]; [reflexivity|].
  destruct l as [|p' l]; [apply P|].
  change (URLSearchParams.toString (p :: p' :: l))
    with (URLSearchParams.encode_pair p
            ++ String "&" (URLSearchParams.toString (p' :: l))).
  rewrite forallb_append, P. cbn [Str.forallb andb]. exact IH.
Qed.

(** Every URL the script builds is plain ASCII made of letters, digits,
    [* - . _], the escapes [+] and [%] and the separators [/ ? = &]: whatever
    the controls hold (spaces, [#], quotes, bytes above 127), none of it
    reaches the URL unescaped. *)
Theorem buildApiUrl_is_escaped
        (outputType : string) (useCurrentId : bool) (pg : page) :
  Str.forallb url_char (buildApiUrl outputType useCurrentId pg) = true.
Proof.
  destruct (buildApiUrl_shape outputType useCurrentId pg) as (tail & -> & _).
  rewrite forallb_append, toString_url_char. reflexivity.
Qed.

Lemma rev_append a b : Str.rev (a ++ b) = Str.rev b ++ Str.rev a.
Proof.
  induction a as [|c a IH]; simpl.
  - clear. induction (Str.rev b) as [|x r IH]; simpl; [|rewrite <- IH];
      reflexivity.
  - now rewrite IH, append_assoc.
Qed.

Lemma rev_rev a : Str.rev (Str.rev a) = a.
Proof.
  induction a as [|c a IH]; [reflexivity|]. simpl.
  now rewrite rev_append, IH.
Qed.

Lemma spaces_snoc n : spaces n ++ " " = String " " (spaces n).
Proof. induction n as [|n IH]; simpl; [|rewrite IH]; reflexivity. Qed.

Lemma rev_spaces n : Str.rev (spaces n) = spaces n.
Proof.
  induction n as [|n IH]; [reflexivity|]. simpl.
  now rewrite IH, spaces_snoc.
Qed.

Lemma length_append a b :
  String.length (a ++ b) = (String.length a + String.length b)%nat.
Proof. induction a as [|c a IH]; simpl; [|rewrite IH]; reflexivity. Qed.

Lemma digit_not_white_space_rev c r :
  Str.is_digit c = true ->
  Str.lit_any (map Str.rev Str.white_space) (String c r) = None.
Proof. each_byte c; intros H; try discriminate H; reflexivity. Qed.

(** Dropping white space from the front of [n] spaces followed by a string
    that starts with a digit, or by nothing. *)
Lemma drop_spaces ps n rest fuel :
  (forall r, Str.lit_any ps (String " " r) = Some r) ->
  Str.lit_any ps rest = None ->
  (n <= fuel)%nat ->
  Str.drop_any ps fuel (spaces n ++ rest) = rest.
Proof.
  intros Hsp Hrest. revert fuel.
  induction n as [|n IH]; intros fuel Hle.
  - cbn [spaces append]. destruct fuel; [reflexivity|].
    cbn [Str.drop_any]. now rewrite Hrest.
  - destruct fuel as [|fuel]; [lia|].
    cbn [spaces append Str.drop_any]. rewrite Hsp. apply IH. lia.
Qed.

Lemma space_is_white_space r :
  Str.lit_any Str.white_space (String " " r) = Some r.
Proof. reflexivity. Qed.

Lemma space_is_white_space_rev r :
  Str.lit_any (map Str.rev Str.white_space) (String " " r) = Some r.
Proof. reflexivity. Qed.

Lemma trim_spaces n : Str.trim (spaces n) = "".
Proof.
  unfold Str.trim, Str.trimStart.
  assert (E : spaces n = spaces n ++ "")
    by (induction n as [|k IH]; simpl; [|rewrite <- IH]; reflexivity).
  rewrite E at 2.
  rewrite drop_spaces;
    [reflexivity | apply space_is_white_space | reflexivity |].
  clear. induction n as [|n IH]; simpl; lia.
Qed.

Lemma length_spaces n : String.length (spaces n) = n.
Proof. induction n as [|n IH]; simpl; [|rewrite IH]; reflexivity. Qed.

Lemma length_rev a : String.length (Str.rev a) = String.length a.
Proof.
  induction a as [|c a IH]; [reflexivity|]. simpl.
  rewrite length_append, IH. simpl. lia.
Qed.

Lemma rev_digits d :
  Str.forallb Str.is_digit d = true -> Str.forallb Str.is_digit (Str.rev d) = true.
Proof.
  induction d as [|c d IH]; [reflexivity|]. simpl.
  intros H; apply andb_prop in H as [Hc Hd].
  rewrite forallb_append, (IH Hd). simpl. now rewrite Hc.
Qed.

Lemma trim_padded_digits a b d :
  d <> "" -> Str.forallb Str.is_digit d = true ->
  Str.trim (spaces a ++ d ++ spaces b) = d.
Proof.
  intros Hne Hd.
  assert (Hfront : forall s, s <> "" -> Str.forallb Str.is_digit s = true ->
            forall t, Str.lit_any Str.white_space (s ++ t) = None).
  { intros [|c s] Hs Hds t; [congruence|]. simpl in Hds.
    apply andb_prop in Hds as [Hc _]. now apply digit_not_white_space. }
  assert (Hback : forall s, s <> "" -> Str.forallb Str.is_digit s = true ->
            forall t, Str.lit_any (map Str.rev Str.white_space) (s ++ t) = None).
  { intros [|c s] Hs Hds t; [congruence|]. simpl in Hds.
    apply andb_prop in Hds as [Hc _]. now apply digit_not_white_space_rev. }
  unfold Str.trim, Str.trimStart.
  rewrite drop_spaces;
    [| apply space_is_white_space | now apply Hfront
     | rewrite length_append, length_spaces; lia].
  unfold Str.trimEnd.
  rewrite rev_append, rev_spaces.
  assert (Hr : Str.rev d <> "").
  { intros E. apply Hne. rewrite <- (rev_rev d), E. reflexivity. }
  assert (E : Str.rev d = Str.rev d ++ "")
    by (clear; induction (Str.rev d) as [|x r IH]; simpl; [|rewrite <- IH];
        reflexivity).
  rewrite drop_spaces;
    [ apply rev_rev | apply space_is_white_space_rev
    | rewrite E; apply Hback; [exact Hr | now apply rev_digits]
    | rewrite length_append, length_spaces; lia ].
Qed.

(** An id field that holds only spaces counts as blank, and a number typed
    with spaces around it is sent without them: for a field of [a] spaces,
    a non-empty run of digits [d] and [b] spaces, every URL built carries
    [character_id=d], whatever id is stored; for a field of spaces alone, a
    preview URL carries no [character_id]. *)
Theorem id_field_is_trimmed (outputType : string) (useCurrentId : bool)
        (pg : page) (a b : nat) (d : string) :
  d <> "" -> Str.forallb Str.is_digit d = true ->
  URLSearchParams.get "character_id"
    (searchParams
       (buildApiUrl outputType useCurrentId
          (set_characterId (spaces a ++ d ++ spaces b) pg)))
  = Some d
  /\ buildApiUrl outputType useCurrentId
       (set_characterId (spaces a ++ d ++ spaces b) pg)
     = buildApiUrl outputType useCurrentId (set_characterId d pg)
  /\ URLSearchParams.has "character_id"
       (searchParams
          (buildApiUrl outputType false (set_characterId (spaces a) pg)))
     = false.
Proof.
  intros Hne Hd.
  assert (T : forall x y, Str.trim (characterIdInput
                (set_characterId (spaces x ++ d ++ spaces y) pg)) = d)
    by (intros; cbn [characterIdInput set_characterId];
        now apply trim_padded_digits).
  assert (F : forall x y, Str.trim (characterIdInput
                (set_characterId (spaces x ++ d ++ spaces y) pg)) <> "")
    by (intros; now rewrite T).
  split; [|split].
  - rewrite (buildApiUrl_filled _ _ _ (F a b)), searchParams_wallpaper, T.
    reflexivity.
  - rewrite (buildApiUrl_filled _ _ _ (F a b)), T.
    pose proof (F 0 0) as F0. pose proof (T 0 0) as T0.
    cbn [spaces append] in F0, T0.
    assert (E : d ++ "" = d)
      by (clear; induction d as [|c d IH]; simpl; [|rewrite IH]; reflexivity).
    rewrite E in F0, T0.
    rewrite (buildApiUrl_filled _ _ _ F0), T0. reflexivity.
  - rewrite buildApiUrl_blank
      by (cbn [characterIdInput set_characterId]; apply trim_spaces).
    now rewrite searchParams_wallpaper.
Qed.

Lemma id_field_is_trimmed_witness :
  URLSearchParams.get "character_id"
    (searchParams
       (buildApiUrl "png" true
          (set_characterId (spaces 2 ++ "42" ++ spaces 1)
             (settled_page (VNumber (Finite 7))))))
  = Some "42".
Proof.
  refine (proj1 (id_field_is_trimmed "png" true
                   (settled_page (VNumber (Finite 7))) 2 1 "42" _ eq_refl)).
  discriminate.
Defined.

End TextProperties.

(* ================================================================= *)
(** ** From a listener to the settled preview *)

Section RoundProperties.
Import JS App Props Traces.

(** One full round. With the id field blank, a listener that starts a
    preview shows the loading markup and requests the [svg] of the current
    controls with no [character_id], leaving the choice to the server; when
    that request succeeds, the response text replaces the loading markup,
    the id named in the header is stored and the preview is fulfilled. *)
Theorem preview_round
        (ev : event) (pg : page) (resp : response) (svgText : string)
        (pre w d post : string) :
  starts_preview ev = true ->
  Str.trim (characterIdInput pg) = "" ->
  ok resp = true ->
  contentDisposition resp
  = Some (pre ++ "filename=wallpaper_" ++ w ++ "_" ++ d ++ ".svg" ++ post) ->
  Str.lacks "f" pre = true ->
  w <> "" -> Str.forallb Str.is_word w = true ->
  d <> "" -> Str.forallb Str.is_digit d = true ->
  let k := List.length (previews pg) in
  let started := dispatch ev pg in
  let done := run (ev :: completes k resp svgText) pg in
  previewContainer started = loading_markup
  /\ (exists url, fetched started = (fetched pg ++ [url])%list
                  /\ searchParams url = base_params "svg" started)
  /\ nth_error (previews started) k = Some AwaitFetch
  /\ previewContainer done = svgText
  /\ currentCharacterId done = VNumber (parseInt10 d)
  /\ nth_error (previews done) k = Some Fulfilled
  /\ fetched done = fetched started.
Proof.
  intros Hev Hblank Hok Hh Hpre Hw Hww Hd Hdd k started done.
  assert (S : previewContainer started = loading_markup
              /\ previews started = (previews pg ++ [AwaitFetch])%list
              /\ fetched started
                 = (fetched pg ++ [buildApiUrl "svg" false started])%list
              /\ characterIdInput started = characterIdInput pg).
  { subst started. destruct ev; try discriminate Hev; cbn [dispatch];
      repeat split. }
  destruct S as (Sc & Sp & Sf & Si).
  assert (Hk : nth_error (previews started) k = Some AwaitFetch).
  { rewrite Sp, nth_error_app2 by (subst k; lia).
    subst k. now rewrite Nat.sub_diag. }
  change done with (run (completes k resp svgText) started).
  destruct (completes_page k resp svgText started Hk Hok)
    as (Hc & Hpr & _ & _ & _ & Hf & _).
  split; [exact Sc|]. split.
  { eexists. split; [exact Sf|].
    rewrite buildApiUrl_blank by (rewrite Si; exact Hblank).
    now rewrite searchParams_wallpaper. }
  split; [exact Hk|]. split; [exact Hc|]. split.
  { rewrite completes_id, Hh by assumption.
    now rewrite match_filename_canonical. }
  split; [|exact Hf].
  rewrite Hpr. eapply nth_error_update_nth; eauto.
Qed.

Lemma preview_round_witness :
  currentCharacterId
    (run (RefreshClick
            :: completes 1
                 (mkResponse 200
                    (Some "attachment; filename=wallpaper_hanja_123.svg"))
                 "<svg/>")
         (settled_page (VNumber (Finite 7))))
  = VNumber (parseInt10 "123").
Proof.
  refine (proj1 (proj2 (proj2 (proj2 (proj2
    (preview_round RefreshClick (settled_page (VNumber (Finite 7)))
       (mkResponse 200 (Some "attachment; filename=wallpaper_hanja_123.svg"))
       "<svg/>" "attachment; " "hanja" "123" ""
       eq_refl eq_refl eq_refl eq_refl eq_refl _ eq_refl _ eq_refl))))));
    discriminate.
Defined.

End RoundProperties.
